(** * UnoJoy controller library (arduniocontroller.h)

    A shallow embedding of the Arduino side of UnoJoy: the bit-packed
    [dataForController_t] record, the global [controllerDataBuffer], the
    foreground writer [setControllerData] and the timer interrupt that answers
    offset requests arriving on the serial port.

    Target assumptions, fixed by the headers the file includes
    (<util/atomic.h>, <Arduino.h>): an 8-bit AVR compiled with avr-gcc, so
    [int] is 16 bits wide, bit-fields are allocated from the least significant
    bit of their byte upwards in declaration order, and a struct assignment is
    carried out one byte at a time. *)

From Stdlib Require Import ZArith Bool Lia.
From stdpp Require Import base list.
From Equations Require Import Equations.

Local Open Scope Z_scope.

(** ** The controller record *)

(** [typedef struct dataForController_t]: seventeen 1-bit button flags, a
    7-bit [padding] field and four 8-bit stick values.  A 1-bit unsigned
    bit-field holds 0 or 1, hence [bool]; the wider fields are integers whose
    range is recorded by [wf_data]. *)
Record dataForController_t : Type := mkData {
  triangleOn : bool;
  circleOn : bool;
  squareOn : bool;
  crossOn : bool;
  l1On : bool;
  l2On : bool;
  l3On : bool;
  r1On : bool;
  r2On : bool;
  r3On : bool;
  selectOn : bool;
  startOn : bool;
  homeOn : bool;
  dpadLeftOn : bool;
  dpadUpOn : bool;
  dpadRightOn : bool;
  dpadDownOn : bool;
  padding : Z;
  leftStickX : Z;
  leftStickY : Z;
  rightStickX : Z;
  rightStickY : Z
}.

(** The values a [uint8_t f : w] member can hold. *)
Definition fits (w v : Z) : Prop := 0 <= v < 2 ^ w.

Definition wf_data (d : dataForController_t) : Prop :=
  fits 7 (padding d) /\
  fits 8 (leftStickX d) /\ fits 8 (leftStickY d) /\
  fits 8 (rightStickX d) /\ fits 8 (rightStickY d).

(** The members in declaration order, each with its declared width and its
    current value. *)
Definition members (d : dataForController_t) : list (Z * Z) :=
  [ (1, Z.b2z (triangleOn d)); (1, Z.b2z (circleOn d));
    (1, Z.b2z (squareOn d)); (1, Z.b2z (crossOn d));
    (1, Z.b2z (l1On d)); (1, Z.b2z (l2On d));
    (1, Z.b2z (l3On d)); (1, Z.b2z (r1On d));
    (1, Z.b2z (r2On d)); (1, Z.b2z (r3On d));
    (1, Z.b2z (selectOn d)); (1, Z.b2z (startOn d));
    (1, Z.b2z (homeOn d)); (1, Z.b2z (dpadLeftOn d));
    (1, Z.b2z (dpadUpOn d)); (1, Z.b2z (dpadRightOn d));
    (1, Z.b2z (dpadDownOn d)); (7, padding d);
    (8, leftStickX d); (8, leftStickY d);
    (8, rightStickX d); (8, rightStickY d) ].

(** Allocation of [uint8_t] bit-fields: [cur] is the byte being filled and
    [used] the number of its low bits already taken.  A member goes to the
    first free bit of the current byte when it fits there and opens a new byte
    otherwise; a byte is emitted as soon as it is full. *)
Fixpoint pack_bitfields (fs : list (Z * Z)) (cur used : Z) : list Z :=
  match fs with
  | [] => if used =? 0 then [] else [cur]
  | (w, v) :: fs' =>
      if used + w <=? 8 then
        let cur' := Z.lor cur (Z.shiftl v used) in
        if used + w =? 8 then cur' :: pack_bitfields fs' 0 0
        else pack_bitfields fs' cur' (used + w)
      else
        cur :: (if w =? 8 then v :: pack_bitfields fs' 0 0
                else pack_bitfields fs' v w)
  end.

(** The object representation of a record value: what
    [(uint8_t* )&controllerData] points at. *)
Definition bytes_of (d : dataForController_t) : list Z :=
  pack_bitfields (members d) 0 0.

(** [sizeof(dataForController_t)]. *)
Definition sizeof_data : Z := 7.

(** [byteAt d i]: byte [i] of the serialized form, for [i] inside the
    record. *)
Definition byteAt (d : dataForController_t) (i : Z) : option Z :=
  if (0 <=? i) && (i <? sizeof_data) then bytes_of d !! Z.to_nat i else None.

(** ** getBlankDataForController *)

(** The function declares a local [controllerData] without initialising it
    and then assigns the seventeen button flags and the four sticks; [padding]
    is never assigned.  The contents the local starts with are therefore an
    input of the model. *)
Definition getBlankDataForController (controllerData : dataForController_t)
  : dataForController_t :=
  {| triangleOn := false;
     circleOn := false;
     squareOn := false;
     crossOn := false;
     l1On := false;
     l2On := false;
     l3On := false;
     r1On := false;
     r2On := false;
     r3On := false;
     dpadLeftOn := false;
     dpadUpOn := false;
     dpadRightOn := false;
     dpadDownOn := false;
     selectOn := false;
     startOn := false;
     homeOn := false;
     padding := padding controllerData;
     leftStickX := 128;
     leftStickY := 128;
     rightStickX := 128;
     rightStickY := 128 |}.

(** ** Global state *)

Inductive pin_mode : Type := INPUT | OUTPUT.

(** The globals of the file and the parts of the board it touches.

    - [controllerDataBuffer] is kept as its object representation, because
      the interrupt handler reads it through a [uint8_t*] and nothing ever
      reads it member by member;
    - [adjacent] is data memory past the end of the buffer: [adjacent i] is
      the byte found at [(uint8_t* )&controllerDataBuffer + i].  What lives
      there is decided when the program is linked;
    - [serial_rx] holds the bytes received and not yet read (oldest first),
      [serial_tx] every byte handed to [Serial.write] so far (oldest first);
    - [pin13] is the direction of pin 13; [serial_baud], [OCR0A] and [TIMSK0]
      are the registers written by [setupUnoJoy]. *)
Record State : Type := mkState {
  controllerDataBuffer : list Z;
  adjacent : Z -> Z;
  serialCheckInterval : Z;
  serialCheckCounter : Z;
  serial_rx : list Z;
  serial_tx : list Z;
  pin13 : pin_mode;
  serial_baud : option Z;
  OCR0A : Z;
  TIMSK0 : Z
}.

Definition set_controllerDataBuffer (v : list Z) (st : State) : State :=
  mkState v (adjacent st) (serialCheckInterval st) (serialCheckCounter st)
          (serial_rx st) (serial_tx st) (pin13 st) (serial_baud st)
          (OCR0A st) (TIMSK0 st).

Definition set_serialCheckInterval (v : Z) (st : State) : State :=
  mkState (controllerDataBuffer st) (adjacent st) v (serialCheckCounter st)
          (serial_rx st) (serial_tx st) (pin13 st) (serial_baud st)
          (OCR0A st) (TIMSK0 st).

Definition set_serialCheckCounter (v : Z) (st : State) : State :=
  mkState (controllerDataBuffer st) (adjacent st) (serialCheckInterval st) v
          (serial_rx st) (serial_tx st) (pin13 st) (serial_baud st)
          (OCR0A st) (TIMSK0 st).

Definition set_serial_rx (v : list Z) (st : State) : State :=
  mkState (controllerDataBuffer st) (adjacent st) (serialCheckInterval st)
          (serialCheckCounter st) v (serial_tx st) (pin13 st) (serial_baud st)
          (OCR0A st) (TIMSK0 st).

Definition set_serial_tx (v : list Z) (st : State) : State :=
  mkState (controllerDataBuffer st) (adjacent st) (serialCheckInterval st)
          (serialCheckCounter st) (serial_rx st) v (pin13 st) (serial_baud st)
          (OCR0A st) (TIMSK0 st).

Definition set_pin13 (v : pin_mode) (st : State) : State :=
  mkState (controllerDataBuffer st) (adjacent st) (serialCheckInterval st)
          (serialCheckCounter st) (serial_rx st) (serial_tx st) v
          (serial_baud st) (OCR0A st) (TIMSK0 st).

Definition set_hardware (baud : option Z) (ocr timsk : Z) (st : State) : State :=
  mkState (controllerDataBuffer st) (adjacent st) (serialCheckInterval st)
          (serialCheckCounter st) (serial_rx st) (serial_tx st) (pin13 st)
          baud ocr timsk.

(** *** Integer types of the target *)

(** [int] is 16 bits, two's complement. *)
Definition int_min : Z := -32768.
Definition int_max : Z := 32767.
Definition in_int (x : Z) : Prop := int_min <= x <= int_max.
Definition wrap_int (x : Z) : Z := (x + 32768) mod 65536 - 32768.

(** Conversion to [byte] (an unsigned 8-bit type). *)
Definition to_byte (x : Z) : Z := x mod 256.

(** *** The serial port and the pins, as far as the file uses them *)

Definition Serial_available (st : State) : Z :=
  Z.of_nat (length (serial_rx st)).

(** [Serial.read()] returns the oldest buffered byte, or -1 when there is
    none; it never waits. *)
Definition Serial_read (st : State) : Z * State :=
  match serial_rx st with
  | [] => (-1, st)
  | b :: rest => (b, set_serial_rx rest st)
  end.

Definition Serial_write (b : Z) (st : State) : State :=
  set_serial_tx (serial_tx st ++ [b]) st.

Definition pinMode_13 (m : pin_mode) (st : State) : State := set_pin13 m st.

(** [((uint8_t* )&controllerDataBuffer)[i]]: a byte of the buffer when [i] is
    inside it, and whatever follows the buffer in memory otherwise.  The
    source performs no range check. *)
Definition buffer_read (st : State) (i : Z) : Z :=
  match controllerDataBuffer st !! Z.to_nat i with
  | Some b => b
  | None => adjacent st i
  end.

(** ** setControllerData *)

(** The body is one [ATOMIC_BLOCK(ATOMIC_FORCEON)]: with interrupts off the
    whole record is copied into the buffer.  (The byte-by-byte execution of
    this copy is the subject of the [Interleaving] module below.) *)
Definition setControllerData (controllerData : dataForController_t)
  (st : State) : State :=
  set_controllerDataBuffer (bytes_of controllerData) st.

(** ** setupUnoJoy *)

(** Bit number of the compare-match-A interrupt enable in [TIMSK0]
    (avr/io.h). *)
Definition OCIE0A : Z := 1.

(** [setupUnoJoy(void)].  [uninit] is the initial content of the local of
    [getBlankDataForController]. *)
Definition setupUnoJoy (uninit : dataForController_t) (st : State) : State :=
  let st := set_controllerDataBuffer
              (bytes_of (getBlankDataForController uninit)) st in
  set_hardware (Some 38400) 128 (Z.lor (TIMSK0 st) (Z.shiftl 1 OCIE0A)) st.

(** [setupUnoJoy(int interval)]. *)
Definition setupUnoJoy_interval (interval : Z) (uninit : dataForController_t)
  (st : State) : State :=
  setupUnoJoy uninit (set_serialCheckInterval interval st).

(** The state of the globals when the program starts: static initialisers
    for the two counters, zero-initialised buffer, nothing received or sent. *)
Definition boot (mem : Z -> Z) : State :=
  mkState (replicate 7 0) mem 1 0 [] [] INPUT None 0 0.

(** ** The timer interrupt *)

(** One iteration of the [while] body. *)
Definition serve_request (st : State) : State :=
  let st := pinMode_13 OUTPUT st in
  let (r, st) := Serial_read st in
  let inByte := to_byte r in
  Serial_write (buffer_read st inByte) st.

(** [while (Serial.available() > 0) { ... }].  Interrupts are off inside the
    handler, so no byte is added to the receive buffer while it runs and each
    iteration shortens it: that is the termination measure. *)
Equations? serial_loop (st : State) : State
  by wf (length (serial_rx st)) lt :=
  serial_loop st with Z_gt_dec (Serial_available st) 0 := {
    | left Havail => serial_loop (serve_request st);
    | right _ => st }.
Proof.
  unfold Serial_available in Havail.
  unfold serve_request, Serial_read, pinMode_13. simpl.
  destruct (serial_rx st); simpl in *; lia.
Qed.

(** [ISR(TIMER0_COMPA_vect)]. *)
Definition ISR (st : State) : State :=
  let st := set_serialCheckCounter (wrap_int (serialCheckCounter st + 1)) st in
  if serialCheckCounter st >=? serialCheckInterval st then
    let st := set_serialCheckCounter 0 st in
    serial_loop st
  else st.

(** The value of the test [serialCheckCounter >= serialCheckInterval] in the
    handler entered from [st], i.e. whether this tick runs the serial loop. *)
Definition ISR_polls (st : State) : bool :=
  wrap_int (serialCheckCounter st + 1) >=? serialCheckInterval st.

(** ** Runs *)

(** What can happen between two instructions of the foreground loop, at the
    granularity at which [setControllerData] is atomic: a timer tick, the
    arrival of a request byte in the receive buffer, a call of
    [setControllerData]. *)
Inductive action : Type :=
| Tick
| Recv (b : Z)
| Submit (d : dataForController_t).

Definition exec (a : action) (st : State) : State :=
  match a with
  | Tick => ISR st
  | Recv b => set_serial_rx (serial_rx st ++ [b]) st
  | Submit d => setControllerData d st
  end.

Definition run (acts : list action) (st : State) : State :=
  fold_left (fun s a => exec a s) acts st.

(** One entry per [Tick] of the run, in order: did that tick poll? *)
Fixpoint poll_log (acts : list action) (st : State) : list bool :=
  match acts with
  | [] => []
  | Tick :: rest => ISR_polls st :: poll_log rest (ISR st)
  | a :: rest => poll_log rest (exec a st)
  end.

Definition is_submit (a : action) : bool :=
  match a with Submit _ => true | _ => false end.

(** The request bytes delivered during a run, in order. *)
Fixpoint requests (acts : list action) : list Z :=
  match acts with
  | [] => []
  | Recv b :: rest => b :: requests rest
  | _ :: rest => requests rest
  end.

Definition is_byte (b : Z) : Prop := 0 <= b < 256.

(** ** Notions used in the statements *)

(** Bits 0 to 7 of a byte, least significant first. *)
Definition bits8 (b : Z) : list bool :=
  map (Z.testbit b) [0; 1; 2; 3; 4; 5; 6; 7].

(** A byte made of eight flags. *)
Definition flags_byte (f0 f1 f2 f3 f4 f5 f6 f7 : bool) : Z :=
  Z.b2z f0 + 2 * Z.b2z f1 + 4 * Z.b2z f2 + 8 * Z.b2z f3 +
  16 * Z.b2z f4 + 32 * Z.b2z f5 + 64 * Z.b2z f6 + 128 * Z.b2z f7.

(** The bytes written in answer to the requests [reqs]. *)
Definition answers (st : State) (reqs : list Z) : list Z :=
  map (fun r => buffer_read st (to_byte r)) reqs.

(** The state a poll ends in: receive buffer empty, one answer appended per
    request, pin 13 an output if anything was served. *)
Definition drained (st : State) : State :=
  mkState (controllerDataBuffer st) (adjacent st) (serialCheckInterval st)
          (serialCheckCounter st) []
          (serial_tx st ++ answers st (serial_rx st))
          (match serial_rx st with [] => pin13 st | _ => OUTPUT end)
          (serial_baud st) (OCR0A st) (TIMSK0 st).

Definition no_submit (acts : list action) : Prop :=
  forallb (fun a => negb (is_submit a)) acts = true.

(** The counter at rest: non-negative and below the interval. *)
Definition counter_in_range (st : State) : Prop :=
  0 <= serialCheckCounter st < serialCheckInterval st.

Definition is_tick (a : action) : bool :=
  match a with Tick => true | _ => false end.

(** The number of ticks of a log that polled. *)
Fixpoint count_polls (log : list bool) : Z :=
  match log with
  | [] => 0
  | true :: rest => 1 + count_polls rest
  | false :: rest => count_polls rest
  end.

(** ** Sample inputs *)

(** A record with no button pressed, padding bits clear and four different
    stick values. *)
Definition sample_data : dataForController_t :=
  mkData false false false false false false false false
         false false false false false false false false
         false 0 10 20 30 40.

(** The same record with its seven padding bits set. *)
Definition sample_data_padded : dataForController_t :=
  mkData false false false false false false false false
         false false false false false false false false
         false 127 10 20 30 40.

(** A state in which the next tick polls: default interval, the blank record
    in the buffer, [reqs] waiting in the receive buffer, memory behind the
    buffer filled with [fill]. *)
Definition ready (fill : Z) (reqs : list Z) : State :=
  set_serial_rx reqs (setupUnoJoy sample_data (boot (fun _ => fill))).

(** Requests for offsets 3 and 0 waiting when the tick arrives. *)
Definition two_requests : State := ready 0 [3; 0].

(** A request for offset 7 waiting, 171 stored behind the buffer. *)
Definition stray_request : State := ready 171 [7].

(** Offsets 0 to 6 requested one per tick, each served by the tick that
    follows. *)
Definition one_request_per_tick : list action :=
  [Recv 0; Tick; Recv 1; Tick; Recv 2; Tick; Recv 3; Tick;
   Recv 4; Tick; Recv 5; Tick; Recv 6; Tick].

(** Offset 3 requested twice, on two different ticks. *)
Definition same_offset_twice : list action := [Recv 3; Tick; Tick; Recv 3; Tick].

(** The state after [setupUnoJoy(3)]. *)
Definition every_third_tick : State :=
  setupUnoJoy_interval 3 sample_data (boot (fun _ => 0)).

(** Seven ticks, with a request arriving and a submit in between. *)
Definition seven_ticks : list action :=
  [Tick; Recv 0; Tick; Tick; Submit sample_data; Tick; Tick; Tick; Tick].

(** ** Interrupts against the byte-wise copy *)

(** [setControllerData] executed step by step, with interrupts.  On this
    target the struct assignment is seven single-byte stores, and
    [ATOMIC_BLOCK(ATOMIC_FORCEON)] clears the global interrupt flag on entry
    and sets it on exit.  A handler declared with [ISR] runs with interrupts
    off, hence to completion, and only starts while the flag is set. *)
Module Interleaving.

(** Where the foreground is: outside [setControllerData], or inside its
    atomic block with [copied] bytes of [src] already stored. *)
Inductive foreground : Type :=
| Idle
| Copying (src : dataForController_t) (copied : nat).

(** [SREG_I] is the global interrupt enable flag. *)
Record machine : Type := mkMachine {
  globals : State;
  SREG_I : bool;
  fg : foreground
}.

Inductive label : Type :=
| Enter (d : dataForController_t)  (* call; ATOMIC_BLOCK entry: cli *)
| CopyByte                         (* one byte of the struct assignment *)
| Leave                            (* ATOMIC_FORCEON exit: sei; return *)
| TimerIrq                         (* TIMER0_COMPA_vect, run to completion *)
| RxIrq (b : Z).                   (* a received byte is buffered *)

Definition timer_enabled (m : machine) : bool :=
  SREG_I m && Z.testbit (TIMSK0 (globals m)) (OCIE0A).

Definition store_byte (k : nat) (src : dataForController_t) (st : State)
  : State :=
  match bytes_of src !! k with
  | Some b => set_controllerDataBuffer (<[k := b]> (controllerDataBuffer st)) st
  | None => st
  end.

(** One step; [None] when the step cannot happen in [m]. *)
Definition mstep (l : label) (m : machine) : option machine :=
  match l, fg m with
  | Enter d, Idle => Some (mkMachine (globals m) false (Copying d 0))
  | CopyByte, Copying src k =>
      if (k <? Z.to_nat sizeof_data)%nat
      then Some (mkMachine (store_byte k src (globals m)) (SREG_I m)
                           (Copying src (S k)))
      else None
  | Leave, Copying src k =>
      if (k =? Z.to_nat sizeof_data)%nat
      then Some (mkMachine (globals m) true Idle)
      else None
  | TimerIrq, _ =>
      if timer_enabled m
      then Some (mkMachine (ISR (globals m)) (SREG_I m) (fg m))
      else None
  | RxIrq b, _ =>
      if SREG_I m
      then Some (mkMachine (exec (Recv b) (globals m)) (SREG_I m) (fg m))
      else None
  | _, _ => None
  end.

Fixpoint mrun (ls : list label) (m : machine) : option machine :=
  match ls with
  | [] => Some m
  | l :: rest =>
      match mstep l m with
      | Some m' => mrun rest m'
      | None => None
      end
  end.

(** The machine once [setupUnoJoy] has returned: interrupts on, the blank
    record in the buffer, the foreground about to enter its loop. *)
Definition after_setup (uninit : dataForController_t) (mem : Z -> Z)
  : machine :=
  mkMachine (setupUnoJoy uninit (boot mem)) true Idle.

(** The records that have been handed to the buffer as a whole: the blank
    one of [setupUnoJoy] and the argument of every call made so far. *)
Definition installed (u : dataForController_t) (hist : list label)
  (d : dataForController_t) : Prop :=
  d = getBlankDataForController u \/ In (Enter d) hist.

(** Outside the atomic block the buffer holds one installed record; inside
    it interrupts are off and the bytes copied so far are those of the
    record being stored. *)
Definition consistent (u : dataForController_t) (hist : list label)
  (m : machine) : Prop :=
  length (controllerDataBuffer (globals m)) = Z.to_nat sizeof_data /\
  match fg m with
  | Idle =>
      exists d, installed u hist d /\
                controllerDataBuffer (globals m) = bytes_of d
  | Copying src k =>
      SREG_I m = false /\ (k <= Z.to_nat sizeof_data)%nat /\
      In (Enter src) hist /\
      take k (controllerDataBuffer (globals m)) = take k (bytes_of src)
  end.

(** A complete call of [setControllerData sample_data], then a request for
    offset 3. *)
Definition one_call : list label :=
  [Enter sample_data; CopyByte; CopyByte; CopyByte; CopyByte; CopyByte;
   CopyByte; CopyByte; Leave; RxIrq 3].

(** The same call, four bytes into the copy. *)
Definition half_call : list label :=
  [Enter sample_data; CopyByte; CopyByte; CopyByte; CopyByte].

Definition run_from_setup (ls : list label) : option machine :=
  mrun ls (after_setup sample_data_padded (fun _ => 0)).

Definition after_one_call : machine :=
  match run_from_setup one_call with
  | Some m => m
  | None => after_setup sample_data_padded (fun _ => 0)
  end.

Definition after_one_call_and_tick : machine :=
  match mstep TimerIrq after_one_call with
  | Some m => m
  | None => after_one_call
  end.

End Interleaving.

(** ** setupUnoJoy, statement by statement *)

(** [setupUnoJoy(void)] executed one statement at a time, the struct
    assignment of its first statement one byte at a time, with the timer and
    receive interrupts arriving in between.  Nothing in [setupUnoJoy] touches
    the global interrupt flag. *)
Module SetupOrder.

(** The statement about to be executed. *)
Inductive setup_pc : Type :=
| CopyBlank (copied : nat)  (* controllerDataBuffer = getBlankDataForController() *)
| SerialBegin               (* Serial.begin(38400) *)
| SetOCR                    (* OCR0A = 128 *)
| EnableIrq                 (* TIMSK0 |= (1 << OCIE0A) *)
| Done.

Record machine : Type := mkMachine {
  globals : State;
  SREG_I : bool;
  pc : setup_pc
}.

Inductive label : Type :=
| Step                      (* the foreground executes [pc] *)
| TimerIrq                  (* TIMER0_COMPA_vect, run to completion *)
| RxIrq (b : Z).            (* a received byte is buffered *)

Definition timer_enabled (m : machine) : bool :=
  SREG_I m && Z.testbit (TIMSK0 (globals m)) OCIE0A.

(** One foreground statement; [blank] is the record returned by
    [getBlankDataForController]. *)
Definition fg_step (blank : dataForController_t) (m : machine)
  : option machine :=
  let st := globals m in
  match pc m with
  | CopyBlank k =>
      if (k <? Z.to_nat sizeof_data)%nat
      then Some (mkMachine (Interleaving.store_byte k blank st) (SREG_I m)
                           (if (S k =? Z.to_nat sizeof_data)%nat
                            then SerialBegin else CopyBlank (S k)))
      else None
  | SerialBegin =>
      Some (mkMachine (set_hardware (Some 38400) (OCR0A st) (TIMSK0 st) st)
                      (SREG_I m) SetOCR)
  | SetOCR =>
      Some (mkMachine (set_hardware (serial_baud st) 128 (TIMSK0 st) st)
                      (SREG_I m) EnableIrq)
  | EnableIrq =>
      Some (mkMachine (set_hardware (serial_baud st) (OCR0A st)
                         (Z.lor (TIMSK0 st) (Z.shiftl 1 OCIE0A)) st)
                      (SREG_I m) Done)
  | Done => None
  end.

Definition mstep (blank : dataForController_t) (l : label) (m : machine)
  : option machine :=
  match l with
  | Step => fg_step blank m
  | TimerIrq =>
      if timer_enabled m
      then Some (mkMachine (ISR (globals m)) (SREG_I m) (pc m))
      else None
  | RxIrq b =>
      if SREG_I m
      then Some (mkMachine (exec (Recv b) (globals m)) (SREG_I m) (pc m))
      else None
  end.

Fixpoint mrun (blank : dataForController_t) (ls : list label) (m : machine)
  : option machine :=
  match ls with
  | [] => Some m
  | l :: rest =>
      match mstep blank l m with
      | Some m' => mrun blank rest m'
      | None => None
      end
  end.

(** Entry of [setupUnoJoy]. *)
Definition entry (st : State) (i : bool) : machine :=
  mkMachine st i (CopyBlank 0).

(** What the invariant of the run says at each statement: until the
    interrupt is enabled the compare-match enable bit is clear, and from the
    end of the copy on the buffer holds the blank record. *)
Definition ordered (blank : dataForController_t) (m : machine) : Prop :=
  length (controllerDataBuffer (globals m)) = Z.to_nat sizeof_data /\
  match pc m with
  | CopyBlank k =>
      Z.testbit (TIMSK0 (globals m)) OCIE0A = false /\
      (k < Z.to_nat sizeof_data)%nat /\
      take k (controllerDataBuffer (globals m)) = take k (bytes_of blank)
  | SerialBegin | SetOCR | EnableIrq =>
      Z.testbit (TIMSK0 (globals m)) OCIE0A = false /\
      controllerDataBuffer (globals m) = bytes_of blank
  | Done => controllerDataBuffer (globals m) = bytes_of blank
  end.

(** Ten foreground statements with a request arriving in the middle. *)
Definition setup_with_request : list label :=
  [Step; Step; Step; RxIrq 3; Step; Step; Step; Step; Step; Step; Step].

(** The machine after [setup_with_request] from the reset state, and after
    one more timer interrupt. *)
Definition after_setup_with_request : machine :=
  match mrun (getBlankDataForController sample_data_padded) setup_with_request
             (entry (boot (fun _ => 0)) true) with
  | Some m => m
  | None => entry (boot (fun _ => 0)) true
  end.

Definition after_setup_tick : machine :=
  match mstep (getBlankDataForController sample_data_padded) TimerIrq
              after_setup_with_request with
  | Some m => m
  | None => after_setup_with_request
  end.

End SetupOrder.

(** ** Further notions and sample inputs *)

(** One complete call of [setControllerData d] on the interleaving machine. *)
Definition full_call (d : dataForController_t) : list Interleaving.label :=
  Interleaving.Enter d :: replicate 7 Interleaving.CopyByte
    ++ [Interleaving.Leave].

(** The foreground outside [setControllerData] with interrupts switched
    off by the caller. *)
Definition idle_irq_off : Interleaving.machine :=
  Interleaving.mkMachine (ready 0 [3]) false Interleaving.Idle.

(** A state whose counter has run past a freshly lowered interval:
    interval 2, counter 7. *)
Definition counter_past_interval : State :=
  set_serialCheckCounter 7 (set_serialCheckInterval 2 (ready 0 [])).

(** Two requests served, one still waiting. *)
Definition two_served_one_waiting : list action :=
  [Recv 3; Recv 0; Tick; Recv 4].

(** The byte of a record with no button pressed and centred sticks at an
    offset other than 2: 0 in the two button bytes, 128 in the stick bytes. *)
Definition neutral_byte (i : Z) : Z := if i <? 2 then 0 else 128.

(** Requests for every offset except 2, served by two polls. *)
Definition poll_around_padding : list action :=
  [Recv 0; Recv 1; Tick; Recv 3; Recv 4; Recv 5; Recv 6; Tick].

(** * Properties *)

Example bytes_of_example :
  bytes_of (mkData true false false false false false false true
                   false true false false false false false false
                   true 5 200 1 2 3) = [129; 2; 11; 200; 1; 2; 3].
Proof. reflexivity. Qed.

(** ** Layout of the serialized record *)

Lemma bytes_of_length (d : dataForController_t) :
  length (bytes_of d) = Z.to_nat sizeof_data.
Proof. reflexivity. Qed.

Lemma lor_b2z_shiftl_1 (b : bool) (p : Z) :
  Z.lor (Z.b2z b) (Z.shiftl p 1) = 2 * p + Z.b2z b.
Proof.
  rewrite Z.shiftl_mul_pow2 by lia. change (2 ^ 1) with 2.
  rewrite (Z.mul_comm p 2).
  apply Z.bits_inj'. intros n Hn. rewrite Z.lor_spec.
  destruct (Z.eq_dec n 0) as [-> | Hne].
  - rewrite Z.testbit_0_r, Z.b2z_bit0, Z.testbit_even_0. apply orb_false_r.
  - replace n with (Z.succ (n - 1)) by lia.
    rewrite Z.testbit_succ_r, Z.testbit_even_succ by lia.
    replace (Z.b2z b) with (2 * 0 + Z.b2z b) at 1 by lia.
    rewrite Z.testbit_succ_r by lia. rewrite Z.testbit_0_l. reflexivity.
Qed.

(** The byte that [dpadDownOn] shares with [padding]. *)
Lemma flag_padding_byte (b : bool) (p : Z) :
  fits 7 p ->
  let byte := Z.lor (Z.lor 0 (Z.shiftl (Z.b2z b) 0)) (Z.shiftl p 1) in
  Z.testbit byte 0 = b /\ Z.shiftr byte 1 = p /\ is_byte byte.
Proof.
  intros [Hlo Hhi] byte. subst byte. change (2 ^ 7) with 128 in Hhi.
  rewrite Z.lor_0_l, Z.shiftl_0_r, lor_b2z_shiftl_1.
  split; [apply Z.testbit_0_r |].
  split.
  - rewrite Z.shiftr_div_pow2 by lia. change (2 ^ 1) with 2.
    destruct b; simpl Z.b2z; [| rewrite Z.add_0_r];
      symmetry; [apply (Z.div_unique _ 2 p 1) | apply (Z.div_unique _ 2 p 0)]; lia.
  - unfold is_byte. destruct b; simpl Z.b2z; lia.
Qed.

Lemma flags_byte_bits (f0 f1 f2 f3 f4 f5 f6 f7 : bool) :
  bits8 (flags_byte f0 f1 f2 f3 f4 f5 f6 f7) = [f0; f1; f2; f3; f4; f5; f6; f7]
  /\ is_byte (flags_byte f0 f1 f2 f3 f4 f5 f6 f7).
Proof.
  unfold is_byte.
  destruct f0, f1, f2, f3, f4, f5, f6, f7; vm_compute; intuition congruence.
Qed.

Lemma bytes_of_flags (d : dataForController_t) :
  bytes_of d !! 0%nat =
    Some (flags_byte (triangleOn d) (circleOn d) (squareOn d) (crossOn d)
                     (l1On d) (l2On d) (l3On d) (r1On d)) /\
  bytes_of d !! 1%nat =
    Some (flags_byte (r2On d) (r3On d) (selectOn d) (startOn d)
                     (homeOn d) (dpadLeftOn d) (dpadUpOn d) (dpadRightOn d)).
Proof.
  split.
  - destruct d as [f0 f1 f2 f3 f4 f5 f6 f7 ? ? ? ? ? ? ? ? ? ? ? ? ? ?].
    destruct f0, f1, f2, f3, f4, f5, f6, f7; reflexivity.
  - destruct d as [? ? ? ? ? ? ? ? f0 f1 f2 f3 f4 f5 f6 f7 ? ? ? ? ? ?].
    destruct f0, f1, f2, f3, f4, f5, f6, f7; reflexivity.
Qed.

(** C1, as stated, fails: byte 2 is not [leftStickX] and the four sticks are
    not at offsets 2 to 5.  For [sample_data] byte 2 is 0 while [leftStickX]
    is 10, and bytes 3, 4, 5 are 10, 20, 30 where the claim expects 20, 30, 40. *)
Lemma layout_claimed_offsets_fail :
  wf_data sample_data /\
  byteAt sample_data 2 <> Some (leftStickX sample_data) /\
  byteAt sample_data 3 <> Some (leftStickY sample_data) /\
  byteAt sample_data 4 <> Some (rightStickX sample_data) /\
  byteAt sample_data 5 <> Some (rightStickY sample_data).
Proof.
  split.
  - unfold wf_data, fits. simpl. lia.
  - repeat split; vm_compute; discriminate.
Qed.

Lemma bytes_of_shape (d : dataForController_t) :
  exists b0 b1,
    bytes_of d =
      [b0; b1;
       Z.lor (Z.lor 0 (Z.shiftl (Z.b2z (dpadDownOn d)) 0)) (Z.shiftl (padding d) 1);
       leftStickX d; leftStickY d; rightStickX d; rightStickY d].
Proof. destruct d. do 2 eexists. reflexivity. Qed.

(** C1, amended: the serialized record is seven bytes long.  Byte 0 holds
    the first eight buttons in declaration order, least significant bit first;
    byte 1 the next eight (r2 to dpadRight); byte 2 holds [dpadDownOn] in
    bit 0 and the seven [padding] bits above it; bytes 3, 4, 5 and 6 are
    [leftStickX], [leftStickY], [rightStickX] and [rightStickY]. *)
Theorem layout_seven_bytes (d : dataForController_t) :
  wf_data d ->
  exists b0 b1 b2,
    bytes_of d = [b0; b1; b2; leftStickX d; leftStickY d;
                  rightStickX d; rightStickY d] /\
    is_byte b0 /\ is_byte b1 /\ is_byte b2 /\
    bits8 b0 = [triangleOn d; circleOn d; squareOn d; crossOn d;
                l1On d; l2On d; l3On d; r1On d] /\
    bits8 b1 = [r2On d; r3On d; selectOn d; startOn d;
                homeOn d; dpadLeftOn d; dpadUpOn d; dpadRightOn d] /\
    Z.testbit b2 0 = dpadDownOn d /\
    Z.shiftr b2 1 = padding d.
Proof.
  intros (Hpad & _).
  destruct (bytes_of_flags d) as [H0 H1].
  destruct (flag_padding_byte (dpadDownOn d) (padding d) Hpad) as (Hb & Hp & Hr).
  destruct (bytes_of_shape d) as (b0 & b1 & Hl).
  rewrite Hl in H0, H1. simpl in H0, H1.
  injection H0 as ->. injection H1 as ->.
  eexists _, _, _. split; [exact Hl |].
  pose proof (flags_byte_bits (triangleOn d) (circleOn d) (squareOn d)
                (crossOn d) (l1On d) (l2On d) (l3On d) (r1On d)) as [? ?].
  pose proof (flags_byte_bits (r2On d) (r3On d) (selectOn d) (startOn d)
                (homeOn d) (dpadLeftOn d) (dpadUpOn d) (dpadRightOn d)) as [? ?].
  repeat match goal with |- _ /\ _ => split end; assumption.
Qed.

Lemma layout_seven_bytes_witness :
  exists b0 b1 b2,
    bytes_of sample_data = [b0; b1; b2; 10; 20; 30; 40] /\
    is_byte b0 /\ is_byte b1 /\ is_byte b2 /\
    bits8 b0 = [false; false; false; false; false; false; false; false] /\
    bits8 b1 = [false; false; false; false; false; false; false; false] /\
    Z.testbit b2 0 = false /\
    Z.shiftr b2 1 = 0.
Proof.
  apply (layout_seven_bytes sample_data).
  unfold wf_data, fits. simpl. lia.
Defined.
(** ** The serial loop *)

Lemma serial_loop_empty (st : State) :
  serial_rx st = [] -> serial_loop st = st.
Proof.
  intros Hrx. rewrite serial_loop_equation_1.
  destruct (Z_gt_dec (Serial_available st) 0) as [H | H]; [exfalso | reflexivity].
  unfold Serial_available in H. rewrite Hrx in H. simpl in H. lia.
Qed.

Lemma serial_loop_pending (st : State) (b : Z) (rest : list Z) :
  serial_rx st = b :: rest -> serial_loop st = serial_loop (serve_request st).
Proof.
  intros Hrx. rewrite serial_loop_equation_1.
  destruct (Z_gt_dec (Serial_available st) 0) as [H | H]; [reflexivity | exfalso].
  unfold Serial_available in H. rewrite Hrx in H. simpl in H. lia.
Qed.

Lemma serial_loop_drained (st : State) : serial_loop st = drained st.
Proof.
  destruct st as [buf adj iv c rx tx pin baud ocr timsk].
  revert tx pin. induction rx as [| b rest IH]; intros tx pin.
  - rewrite serial_loop_empty by reflexivity.
    unfold drained, answers. simpl. rewrite app_nil_r. reflexivity.
  - erewrite serial_loop_pending by reflexivity.
    unfold serve_request, pinMode_13, Serial_read, Serial_write. simpl.
    unfold set_serial_tx, set_serial_rx, set_pin13. simpl.
    rewrite IH. unfold drained, answers. simpl.
    rewrite <- app_assoc. simpl.
    destruct rest; reflexivity.
Qed.

(** ** The interrupt handler, case by case *)

Lemma wrap_int_id (x : Z) : in_int x -> wrap_int x = x.
Proof.
  unfold in_int, int_min, int_max, wrap_int. intros H.
  rewrite Z.mod_small by lia. lia.
Qed.

Lemma ISR_poll_tick (st : State) :
  ISR_polls st = true ->
  ISR st = drained (set_serialCheckCounter 0 st).
Proof.
  unfold ISR_polls, ISR. simpl. intros ->.
  rewrite serial_loop_drained. reflexivity.
Qed.

Lemma ISR_idle_tick (st : State) :
  ISR_polls st = false ->
  ISR st = set_serialCheckCounter (wrap_int (serialCheckCounter st + 1)) st.
Proof. unfold ISR_polls, ISR. simpl. intros ->. reflexivity. Qed.

Lemma ISR_cases (st : State) :
  ISR st = if ISR_polls st
           then drained (set_serialCheckCounter 0 st)
           else set_serialCheckCounter (wrap_int (serialCheckCounter st + 1)) st.
Proof.
  destruct (ISR_polls st) eqn:E; [apply ISR_poll_tick | apply ISR_idle_tick];
    exact E.
Qed.

Lemma ISR_buffer (st : State) :
  controllerDataBuffer (ISR st) = controllerDataBuffer st.
Proof. rewrite ISR_cases. destruct (ISR_polls st); reflexivity. Qed.

Lemma ISR_adjacent (st : State) : adjacent (ISR st) = adjacent st.
Proof. rewrite ISR_cases. destruct (ISR_polls st); reflexivity. Qed.

Lemma ISR_interval (st : State) :
  serialCheckInterval (ISR st) = serialCheckInterval st.
Proof. rewrite ISR_cases. destruct (ISR_polls st); reflexivity. Qed.

Lemma ISR_TIMSK0 (st : State) : TIMSK0 (ISR st) = TIMSK0 st.
Proof. rewrite ISR_cases. destruct (ISR_polls st); reflexivity. Qed.

(** Reads depend on the buffer and on the memory behind it, nothing else. *)
Lemma buffer_read_ext (st st' : State) (i : Z) :
  controllerDataBuffer st' = controllerDataBuffer st ->
  adjacent st' = adjacent st ->
  buffer_read st' i = buffer_read st i.
Proof. unfold buffer_read. intros -> ->. reflexivity. Qed.

Lemma answers_ext (st st' : State) (reqs : list Z) :
  controllerDataBuffer st' = controllerDataBuffer st ->
  adjacent st' = adjacent st ->
  answers st' reqs = answers st reqs.
Proof.
  intros Hb Ha. unfold answers. apply map_ext. intros r.
  apply buffer_read_ext; assumption.
Qed.

Lemma to_byte_id (b : Z) : is_byte b -> to_byte b = b.
Proof. unfold is_byte, to_byte. intros H. apply Z.mod_small. exact H. Qed.

Lemma answers_bytes (st : State) (reqs : list Z) :
  Forall is_byte reqs -> answers st reqs = map (buffer_read st) reqs.
Proof.
  unfold answers. induction 1 as [| r reqs Hr _ IH]; simpl; [reflexivity |].
  rewrite to_byte_id by exact Hr. rewrite IH. reflexivity.
Qed.

Lemma answers_app (st : State) (r1 r2 : list Z) :
  answers st (r1 ++ r2) = answers st r1 ++ answers st r2.
Proof. unfold answers. apply map_app. Qed.

(** Inside the record, a read of the buffer is [byteAt] of the record it
    holds. *)
Lemma buffer_read_byteAt (st : State) (d : dataForController_t) (i : Z) :
  controllerDataBuffer st = bytes_of d ->
  0 <= i < sizeof_data ->
  byteAt d i = Some (buffer_read st i).
Proof.
  intros Hbuf Hi. unfold byteAt, buffer_read. rewrite Hbuf.
  replace ((0 <=? i) && (i <? sizeof_data)) with true
    by (symmetry; apply andb_true_iff; split; [apply Z.leb_le | apply Z.ltb_lt]; lia).
  destruct (bytes_of d !! Z.to_nat i) as [b |] eqn:E; [reflexivity |].
  apply lookup_ge_None in E. rewrite bytes_of_length in E.
  unfold sizeof_data in *. lia.
Qed.

(** Past the record, a read of the buffer is a read of the memory behind
    it. *)
Lemma buffer_read_past (st : State) (i : Z) :
  length (controllerDataBuffer st) = Z.to_nat sizeof_data ->
  sizeof_data <= i ->
  buffer_read st i = adjacent st i.
Proof.
  intros Hlen Hi. unfold buffer_read.
  rewrite (proj2 (lookup_ge_None _ _)); [reflexivity |].
  rewrite Hlen. unfold sizeof_data in *. lia.
Qed.

(** ** getBlankDataForController *)

(** Whatever the local starts with, the result has no button pressed and the
    four sticks centred; the function takes no [State] and returns none. *)
Lemma blank_buttons_and_sticks (u : dataForController_t) :
  let d := getBlankDataForController u in
  [triangleOn d; circleOn d; squareOn d; crossOn d; l1On d; l2On d; l3On d;
   r1On d; r2On d; r3On d; selectOn d; startOn d; homeOn d; dpadLeftOn d;
   dpadUpOn d; dpadRightOn d; dpadDownOn d] = replicate 17 false /\
  [leftStickX d; leftStickY d; rightStickX d; rightStickY d]
    = [128; 128; 128; 128] /\
  bytes_of d = [0; 0; 2 * padding u; 128; 128; 128; 128].
Proof.
  simpl. split; [reflexivity |]. split; [reflexivity |].
  unfold bytes_of. simpl members.
  replace (2 * padding u) with (Z.shiftl (padding u) 1)
    by (rewrite Z.shiftl_mul_pow2 by lia; change (2 ^ 1) with 2; lia).
  reflexivity.
Qed.

(** C7: [getBlankDataForController] evaluated from two contents of its
    uninitialised local.  Buttons and sticks come out as claimed (bytes 0, 1
    are 0, bytes 3 to 6 are 128), but [padding] is never assigned, so byte 2
    of the result is 0 in one call and 254 in the other: the result is not a
    fixed, zeroed value. *)
Theorem blank_padding_unassigned :
  wf_data sample_data /\ wf_data sample_data_padded /\
  bytes_of (getBlankDataForController sample_data)
    = [0; 0; 0; 128; 128; 128; 128] /\
  bytes_of (getBlankDataForController sample_data_padded)
    = [0; 0; 254; 128; 128; 128; 128] /\
  getBlankDataForController sample_data
    <> getBlankDataForController sample_data_padded.
Proof.
  split; [unfold wf_data, fits; simpl; lia |].
  split; [unfold wf_data, fits; simpl; lia |].
  split; [reflexivity |]. split; [reflexivity |].
  intros H. apply (f_equal padding) in H. simpl in H. discriminate H.
Qed.

(** ** The poll *)

(** What a polling tick does to the serial port. *)
Lemma poll_serves_requests_aux (st : State) :
  ISR_polls st = true ->
  Forall is_byte (serial_rx st) ->
  serial_rx (ISR st) = [] /\
  serial_tx (ISR st) = serial_tx st ++ map (buffer_read st) (serial_rx st) /\
  length (serial_tx (ISR st))
    = (length (serial_tx st) + length (serial_rx st))%nat.
Proof.
  intros Hpoll Hbytes. rewrite (ISR_poll_tick st Hpoll).
  assert (Htx : serial_tx (drained (set_serialCheckCounter 0 st))
                = serial_tx st ++ map (buffer_read st) (serial_rx st)).
  { unfold drained. simpl.
    rewrite (answers_ext st) by reflexivity.
    rewrite answers_bytes by exact Hbytes. reflexivity. }
  split; [reflexivity |]. split; [exact Htx |]. rewrite Htx.
  rewrite length_app, length_map. reflexivity.
Qed.

(** C6: on a tick that polls, the handler serves every buffered request and
    only those: the receive buffer ends empty, exactly one byte is written
    per request, in order, and the byte written for a request [i] is the byte
    at offset [i] of the buffer, which for a buffer holding the record [d]
    and [i] inside it is [byteAt d i].  Nothing is read that was not already
    buffered: with an empty receive buffer the poll writes nothing. *)
Theorem poll_serves_buffered_requests (st : State) :
  ISR_polls st = true ->
  Forall is_byte (serial_rx st) ->
  serial_rx (ISR st) = [] /\
  serial_tx (ISR st) = serial_tx st ++ map (buffer_read st) (serial_rx st) /\
  length (serial_tx (ISR st))
    = (length (serial_tx st) + length (serial_rx st))%nat /\
  (serial_rx st = [] -> serial_tx (ISR st) = serial_tx st) /\
  (forall d k i,
      controllerDataBuffer st = bytes_of d ->
      serial_rx st !! k = Some i ->
      i < sizeof_data ->
      serial_tx (ISR st) !! (length (serial_tx st) + k)%nat = byteAt d i).
Proof.
  intros Hpoll Hbytes.
  destruct (poll_serves_requests_aux st Hpoll Hbytes) as (Hrx & Htx & Hl).
  split; [exact Hrx |]. split; [exact Htx |]. split; [exact Hl |].
  rewrite Htx.
  split; [intros ->; apply app_nil_r |].
  intros d k i Hbuf Hk Hi.
  rewrite lookup_app_r by lia.
  replace (length (serial_tx st) + k - length (serial_tx st))%nat with k by lia.
  rewrite list_lookup_fmap, Hk. simpl.
  symmetry. apply buffer_read_byteAt; [exact Hbuf |].
  rewrite Forall_forall in Hbytes.
  assert (is_byte i) as [? ?]
    by (apply Hbytes; eapply list_elem_of_lookup_2; exact Hk).
  lia.
Qed.

Lemma poll_serves_buffered_requests_witness :
  serial_rx (ISR two_requests) = [] /\
  serial_tx (ISR two_requests)
    = serial_tx two_requests
      ++ map (buffer_read two_requests) (serial_rx two_requests) /\
  length (serial_tx (ISR two_requests))
    = (length (serial_tx two_requests)
       + length (serial_rx two_requests))%nat /\
  (serial_rx two_requests = [] ->
   serial_tx (ISR two_requests) = serial_tx two_requests) /\
  (forall d k i,
      controllerDataBuffer two_requests = bytes_of d ->
      serial_rx two_requests !! k = Some i ->
      i < sizeof_data ->
      serial_tx (ISR two_requests)
        !! (length (serial_tx two_requests) + k)%nat = byteAt d i).
Proof.
  apply (poll_serves_buffered_requests two_requests).
  - reflexivity.
  - repeat constructor; unfold is_byte; lia.
Defined.

Example poll_example :
  serial_tx (ISR two_requests) = [128; 0].
Proof. reflexivity. Qed.

(** ** Requests past the end of the record *)

(** C4, as stated, fails: a request for offset 7, one past the last byte of
    the record, is answered like any other, with the byte that follows the
    buffer in memory.  Two states holding the same record and differing only
    in that memory answer 171 and 205. *)
Lemma out_of_range_reads_adjacent_memory :
  controllerDataBuffer (ready 171 [7]) = controllerDataBuffer (ready 205 [7]) /\
  ISR_polls (ready 171 [7]) = true /\
  ISR_polls (ready 205 [7]) = true /\
  serial_tx (ISR (ready 171 [7])) = [171] /\
  serial_tx (ISR (ready 205 [7])) = [205].
Proof. vm_compute. repeat split. Qed.

(** C4, amended: the handler applies no range check.  On a tick that polls,
    a request byte [i] of value 7 or more is served like a valid one: exactly
    one byte is written for it, and that byte is the one found [i] bytes from
    the start of the buffer, in the memory behind the record.  The request is
    neither clamped nor dropped nor reported. *)
Theorem out_of_range_request_unchecked (st : State) (k : nat) (i : Z) :
  ISR_polls st = true ->
  Forall is_byte (serial_rx st) ->
  length (controllerDataBuffer st) = Z.to_nat sizeof_data ->
  serial_rx st !! k = Some i ->
  sizeof_data <= i ->
  length (serial_tx (ISR st))
    = (length (serial_tx st) + length (serial_rx st))%nat /\
  serial_tx (ISR st) !! (length (serial_tx st) + k)%nat
    = Some (adjacent st i).
Proof.
  intros Hpoll Hbytes Hlen Hk Hi.
  destruct (poll_serves_requests_aux st Hpoll Hbytes) as (_ & Htx & Hl).
  split; [exact Hl |]. rewrite Htx.
  rewrite lookup_app_r by lia.
  replace (length (serial_tx st) + k - length (serial_tx st))%nat with k by lia.
  rewrite list_lookup_fmap, Hk. simpl.
  rewrite buffer_read_past by assumption. reflexivity.
Qed.

Lemma out_of_range_request_unchecked_witness :
  length (serial_tx (ISR stray_request))
    = (length (serial_tx stray_request) + length (serial_rx stray_request))%nat /\
  serial_tx (ISR stray_request) !! (length (serial_tx stray_request) + 0)%nat
    = Some (adjacent stray_request 7).
Proof.
  apply (out_of_range_request_unchecked stray_request 0 7).
  - reflexivity.
  - repeat constructor; unfold is_byte; lia.
  - reflexivity.
  - reflexivity.
  - unfold sizeof_data. lia.
Defined.

(** ** Runs without a submit *)

Lemma exec_buffer (a : action) (st : State) :
  is_submit a = false ->
  controllerDataBuffer (exec a st) = controllerDataBuffer st.
Proof.
  destruct a; simpl; intros H; [apply ISR_buffer | reflexivity | discriminate H].
Qed.

Lemma exec_adjacent (a : action) (st : State) :
  adjacent (exec a st) = adjacent st.
Proof. destruct a; simpl; [apply ISR_adjacent | reflexivity | reflexivity]. Qed.

Lemma run_cons (a : action) (acts : list action) (st : State) :
  run (a :: acts) st = run acts (exec a st).
Proof. reflexivity. Qed.

Lemma run_buffer (acts : list action) (st : State) :
  no_submit acts ->
  controllerDataBuffer (run acts st) = controllerDataBuffer st.
Proof.
  unfold no_submit. revert st.
  induction acts as [| a acts IH]; intros st H; [reflexivity |].
  simpl in H. apply andb_true_iff in H as [Ha H].
  rewrite run_cons, IH by exact H.
  apply exec_buffer. destruct (is_submit a); [discriminate Ha | reflexivity].
Qed.

Lemma run_adjacent (acts : list action) (st : State) :
  adjacent (run acts st) = adjacent st.
Proof.
  revert st. induction acts as [| a acts IH]; intros st; [reflexivity |].
  rewrite run_cons, IH. apply exec_adjacent.
Qed.

(** Requests are answered in arrival order: what has been written, followed
    by the answers still owed to the buffered requests, is the answer list of
    everything received. *)
Lemma exec_conservation (a : action) (st : State) :
  is_submit a = false ->
  serial_tx (exec a st) ++ answers st (serial_rx (exec a st))
  = serial_tx st ++ answers st (serial_rx st ++ requests [a]).
Proof.
  destruct a as [| b | d]; simpl; intros H.
  - rewrite app_nil_r, ISR_cases.
    destruct (ISR_polls st); simpl.
    + rewrite app_nil_r. rewrite (answers_ext st) by reflexivity. reflexivity.
    + reflexivity.
  - reflexivity.
  - discriminate H.
Qed.

Lemma requests_cons (a : action) (acts : list action) :
  requests (a :: acts) = requests [a] ++ requests acts.
Proof. destruct a; reflexivity. Qed.

Lemma run_conservation (acts : list action) (st : State) :
  no_submit acts ->
  serial_tx (run acts st) ++ answers st (serial_rx (run acts st))
  = serial_tx st ++ answers st (serial_rx st ++ requests acts).
Proof.
  unfold no_submit. revert st.
  induction acts as [| a acts IH]; intros st H.
  - simpl. rewrite app_nil_r. reflexivity.
  - simpl in H. apply andb_true_iff in H as [Ha H].
    assert (Ha' : is_submit a = false)
      by (destruct (is_submit a); [discriminate Ha | reflexivity]).
    assert (Hext : forall reqs, answers (exec a st) reqs = answers st reqs)
      by (intros reqs; apply answers_ext;
          [apply exec_buffer; exact Ha' | apply exec_adjacent]).
    pose proof (IH (exec a st) H) as IH1. rewrite !Hext in IH1.
    rewrite run_cons, IH1, requests_cons.
    rewrite (answers_app st (serial_rx (exec a st))), app_assoc.
    rewrite (exec_conservation a st Ha').
    rewrite <- app_assoc, <- answers_app, <- app_assoc. reflexivity.
Qed.

(** Once every request has been served, the output is the answer list. *)
Lemma run_all_served (acts : list action) (st : State) :
  no_submit acts ->
  serial_rx st = [] ->
  serial_rx (run acts st) = [] ->
  serial_tx (run acts st) = serial_tx st ++ answers st (requests acts).
Proof.
  intros Hns Hrx Hfin.
  pose proof (run_conservation acts st Hns) as H.
  rewrite Hfin, Hrx in H. simpl in H.
  unfold answers in H at 1. simpl in H. rewrite app_nil_r in H. exact H.
Qed.

(** ** Submit, then poll *)

Lemma answers_all_offsets (st : State) (d : dataForController_t) :
  controllerDataBuffer st = bytes_of d ->
  answers st [0; 1; 2; 3; 4; 5; 6] = bytes_of d.
Proof.
  intros Hbuf. unfold answers, buffer_read. rewrite Hbuf.
  generalize (bytes_of_length d). generalize (bytes_of d). intros l Hl.
  do 7 (destruct l as [| ? l]; [discriminate Hl |]).
  destruct l; [reflexivity | discriminate Hl].
Qed.

(** C2: after [setControllerData S], in any run without a further submit in
    which the offsets 0, 1, ..., 6 are requested in this order and all get
    served (however the requests are spread over the ticks), the bytes
    written are exactly the serialized form of [S], padding bits included. *)
Theorem submit_then_poll_roundtrip
  (S : dataForController_t) (st : State) (acts : list action) :
  no_submit acts ->
  serial_rx st = [] ->
  requests acts = [0; 1; 2; 3; 4; 5; 6] ->
  serial_rx (run acts (setControllerData S st)) = [] ->
  serial_tx (run acts (setControllerData S st)) = serial_tx st ++ bytes_of S.
Proof.
  intros Hns Hrx Hreq Hfin.
  rewrite (run_all_served acts _ Hns) by assumption.
  rewrite Hreq, (answers_all_offsets _ S) by reflexivity.
  reflexivity.
Qed.

Lemma submit_then_poll_roundtrip_witness :
  serial_tx (run one_request_per_tick
               (setControllerData sample_data_padded (ready 0 [])))
  = serial_tx (ready 0 []) ++ bytes_of sample_data_padded.
Proof.
  apply (submit_then_poll_roundtrip sample_data_padded (ready 0 [])
           one_request_per_tick); reflexivity.
Defined.

Example roundtrip_example :
  serial_tx (run one_request_per_tick
               (setControllerData sample_data_padded (ready 0 [])))
  = [0; 0; 254; 10; 20; 30; 40].
Proof. reflexivity. Qed.

(** C8: with no submit in between, two successive requests for the same
    valid offset [i] get the same byte, namely byte [i] of the stored record,
    whether one tick serves both or other ticks and arrivals separate them. *)
Theorem repeated_request_same_byte
  (d : dataForController_t) (st : State) (acts : list action) (i : Z) :
  no_submit acts ->
  controllerDataBuffer st = bytes_of d ->
  0 <= i < sizeof_data ->
  serial_rx st = [] ->
  requests acts = [i; i] ->
  serial_rx (run acts st) = [] ->
  exists b, byteAt d i = Some b /\
            serial_tx (run acts st) = serial_tx st ++ [b; b].
Proof.
  intros Hns Hbuf Hi Hrx Hreq Hfin.
  exists (buffer_read st i). split.
  - apply buffer_read_byteAt; assumption.
  - rewrite (run_all_served acts _ Hns) by assumption.
    rewrite Hreq. unfold answers. simpl.
    rewrite to_byte_id by (unfold is_byte, sizeof_data in *; lia).
    reflexivity.
Qed.

Lemma repeated_request_same_byte_witness :
  exists b, byteAt (getBlankDataForController sample_data) 3 = Some b /\
            serial_tx (run same_offset_twice (ready 0 []))
            = serial_tx (ready 0 []) ++ [b; b].
Proof.
  apply (repeated_request_same_byte (getBlankDataForController sample_data)
           (ready 0 []) same_offset_twice 3);
    first [reflexivity | unfold sizeof_data; lia].
Defined.

(** ** What each operation leaves alone *)

(** C9: the buffer is written by [setControllerData] and by [setupUnoJoy]
    only: the interrupt handler and the arrival of a request leave it as it
    is.  [setControllerData] stores the record it is given and leaves
    [serialCheckInterval] and [serialCheckCounter] as they are. *)
Theorem buffer_written_only_by_submit_and_setup :
  (forall st, controllerDataBuffer (ISR st) = controllerDataBuffer st) /\
  (forall a st, is_submit a = false ->
                controllerDataBuffer (exec a st) = controllerDataBuffer st) /\
  (forall d st,
      controllerDataBuffer (setControllerData d st) = bytes_of d /\
      serialCheckInterval (setControllerData d st) = serialCheckInterval st /\
      serialCheckCounter (setControllerData d st) = serialCheckCounter st) /\
  (forall u st,
      controllerDataBuffer (setupUnoJoy u st)
      = bytes_of (getBlankDataForController u)).
Proof.
  split; [exact ISR_buffer |].
  split; [exact exec_buffer |].
  split; [intros d st; repeat split |].
  intros u st. reflexivity.
Qed.

(** ** The tick counter *)

(** With the counter in range the increment does not overflow, and the tick
    polls exactly when the incremented counter equals the interval. *)
Lemma ISR_polls_in_range (st : State) :
  in_int (serialCheckInterval st) ->
  counter_in_range st ->
  ISR_polls st = (serialCheckCounter st + 1 =? serialCheckInterval st).
Proof.
  unfold in_int, int_min, int_max, counter_in_range, ISR_polls.
  intros Hk Hc. rewrite wrap_int_id by (unfold in_int, int_min, int_max; lia).
  unfold Z.geb.
  destruct (Z.compare_spec (serialCheckCounter st + 1) (serialCheckInterval st));
    destruct (Z.eqb_spec (serialCheckCounter st + 1) (serialCheckInterval st));
    first [reflexivity | lia].
Qed.

Lemma ISR_counter_in_range (st : State) :
  in_int (serialCheckInterval st) ->
  counter_in_range st ->
  serialCheckCounter (ISR st)
  = (serialCheckCounter st + 1) mod serialCheckInterval st.
Proof.
  intros Hk Hc. rewrite ISR_cases, (ISR_polls_in_range st Hk Hc).
  unfold in_int, int_min, int_max, counter_in_range in *.
  destruct (Z.eqb_spec (serialCheckCounter st + 1) (serialCheckInterval st))
    as [E | E]; simpl.
  - rewrite E, Z.mod_same by lia. reflexivity.
  - rewrite wrap_int_id by (unfold in_int, int_min, int_max; lia).
    rewrite Z.mod_small by lia. reflexivity.
Qed.

Lemma ISR_keeps_counter_in_range (st : State) :
  in_int (serialCheckInterval st) ->
  1 <= serialCheckInterval st ->
  counter_in_range st ->
  counter_in_range (ISR st).
Proof.
  intros Hk H1 Hc. unfold counter_in_range.
  rewrite ISR_interval, (ISR_counter_in_range st Hk Hc).
  apply Z.mod_pos_bound. lia.
Qed.

(** C10: for an interval of at least 1, [0 <= serialCheckCounter <
    serialCheckInterval] holds when the counter is 0 and every invocation of
    the handler preserves it, leaving the interval as it is. *)
Theorem counter_stays_below_interval (st : State) :
  in_int (serialCheckInterval st) ->
  1 <= serialCheckInterval st ->
  (serialCheckCounter st = 0 -> counter_in_range st) /\
  (counter_in_range st ->
   counter_in_range (ISR st) /\
   serialCheckInterval (ISR st) = serialCheckInterval st).
Proof.
  intros Hk H1. split.
  - unfold counter_in_range. intros ->. lia.
  - intros Hc. split; [| apply ISR_interval].
    apply ISR_keeps_counter_in_range; assumption.
Qed.

Lemma counter_stays_below_interval_witness :
  (serialCheckCounter every_third_tick = 0 ->
   counter_in_range every_third_tick) /\
  (counter_in_range every_third_tick ->
   counter_in_range (ISR every_third_tick) /\
   serialCheckInterval (ISR every_third_tick)
   = serialCheckInterval every_third_tick).
Proof.
  apply (counter_stays_below_interval every_third_tick).
  - unfold in_int, int_min, int_max. simpl. lia.
  - simpl. lia.
Defined.

(** ** Cadence *)

Lemma exec_counter (a : action) (st : State) :
  a <> Tick ->
  serialCheckCounter (exec a st) = serialCheckCounter st /\
  serialCheckInterval (exec a st) = serialCheckInterval st.
Proof. destruct a; intros H; [congruence | split; reflexivity ..]. Qed.

(** From a counter value [c] in range, the tick number [t] (counting from 0)
    polls exactly when [c + t + 1] is a multiple of the interval. *)
Lemma poll_log_from (acts : list action) (st : State) (t : nat) (b : bool) :
  in_int (serialCheckInterval st) ->
  counter_in_range st ->
  poll_log acts st !! t = Some b ->
  b = ((serialCheckCounter st + Z.of_nat t + 1) mod serialCheckInterval st =? 0).
Proof.
  revert st t. induction acts as [| a acts IH]; intros st t Hk Hc Hlog.
  - discriminate Hlog.
  - assert (Hstep : forall st', serialCheckInterval st' = serialCheckInterval st ->
                       serialCheckCounter st' = serialCheckCounter st ->
                       poll_log acts st' !! t = Some b ->
              b = ((serialCheckCounter st + Z.of_nat t + 1)
                     mod serialCheckInterval st =? 0)).
    { intros st' Hi' Hc' Hl. rewrite <- Hi', <- Hc'. apply IH; [congruence | | exact Hl].
      unfold counter_in_range in *. rewrite Hi', Hc'. exact Hc. }
    destruct a as [| r | d]; simpl in Hlog.
    + pose proof Hc as Hc0. unfold counter_in_range, in_int, int_min, int_max in Hc0, Hk.
      destruct t as [| t]; simpl in Hlog.
      * injection Hlog as <-. rewrite (ISR_polls_in_range st Hk Hc).
        rewrite Nat2Z.inj_0, Z.add_0_r.
        destruct (Z.eqb_spec (serialCheckCounter st + 1) (serialCheckInterval st))
          as [E | E].
        -- rewrite E, Z.mod_same by lia. reflexivity.
        -- rewrite Z.mod_small by lia. symmetry. apply Z.eqb_neq. lia.
      * apply IH in Hlog.
        -- rewrite Hlog, ISR_interval, (ISR_counter_in_range st Hk Hc).
           rewrite <- Z.add_assoc, Z.add_mod_idemp_l by lia.
           f_equal. f_equal. lia.
        -- rewrite ISR_interval. exact Hk.
        -- apply ISR_keeps_counter_in_range; [exact Hk | lia | exact Hc].
    + exact (Hstep (exec (Recv r) st) eq_refl eq_refl Hlog).
    + exact (Hstep (exec (Submit d) st) eq_refl eq_refl Hlog).
Qed.

Lemma poll_log_length (acts : list action) (st : State) :
  length (poll_log acts st) = length (filter (fun a => is_tick a = true) acts).
Proof.
  revert st. induction acts as [| a acts IH]; intros st; [reflexivity |].
  destruct a; simpl; rewrite ?IH; reflexivity.
Qed.

Lemma count_polls_app (l1 l2 : list bool) :
  count_polls (l1 ++ l2) = count_polls l1 + count_polls l2.
Proof.
  induction l1 as [| [|] l1 IH]; simpl; rewrite ?IH; lia.
Qed.

Lemma div_next (n K : Z) :
  0 <= n -> 1 <= K ->
  (n + 1) / K = n / K + (if (n + 1) mod K =? 0 then 1 else 0).
Proof.
  intros Hn HK.
  pose proof (Z.div_mod n K ltac:(lia)) as Hdm.
  pose proof (Z.mod_pos_bound n K ltac:(lia)) as Hr.
  destruct (Z.eq_dec (n mod K) (K - 1)) as [E | E].
  - assert (Hm : (n + 1) mod K = 0)
      by (symmetry; apply (Z.mod_unique _ K (n / K + 1)); lia).
    rewrite Hm. simpl. symmetry. apply (Z.div_unique _ K _ 0); lia.
  - assert (Hm : (n + 1) mod K = n mod K + 1)
      by (symmetry; apply (Z.mod_unique _ K (n / K)); lia).
    rewrite Hm. destruct (Z.eqb_spec (n mod K + 1) 0); [lia |].
    rewrite Z.add_0_r. symmetry.
    apply (Z.div_unique _ K _ (n mod K + 1)); lia.
Qed.

Lemma count_polls_prefix (log : list bool) (K : Z) :
  1 <= K ->
  (forall (t : nat) (b : bool),
      log !! t = Some b -> b = ((Z.of_nat t + 1) mod K =? 0)) ->
  forall n : nat, (n <= length log)%nat ->
    count_polls (take n log) = Z.of_nat n / K.
Proof.
  intros HK Hlog n. induction n as [| n IH]; intros Hn.
  - rewrite take_0. simpl. rewrite Z.div_0_l by lia. reflexivity.
  - destruct (log !! n) as [b |] eqn:E.
    2:{ apply lookup_ge_None in E. lia. }
    rewrite (take_S_r _ _ b E), count_polls_app, IH by lia.
    rewrite (Hlog n b E). rewrite Nat2Z.inj_succ, <- Z.add_1_r.
    rewrite (div_next (Z.of_nat n) K) by lia.
    destruct ((Z.of_nat n + 1) mod K =? 0); simpl; lia.
Qed.

(** C5: with the interval set to [K >= 1] and the counter at 0, in any run
    the ticks that poll are the ticks number K, 2K, 3K, ... (counting ticks
    from 1) and no other: tick number [t + 1] polls exactly when [K] divides
    [t + 1], so the first [n] ticks contain [n / K] polls, one per [K] ticks.
    A tick that does not poll leaves the serial port alone. *)
Theorem poll_every_K_ticks (K : Z) (st : State) (acts : list action) :
  1 <= K -> in_int K ->
  serialCheckInterval st = K ->
  serialCheckCounter st = 0 ->
  length (poll_log acts st) = length (filter (fun a => is_tick a = true) acts) /\
  (forall (t : nat) (b : bool),
      poll_log acts st !! t = Some b ->
      b = ((Z.of_nat t + 1) mod K =? 0)) /\
  (forall n : nat, (n <= length (poll_log acts st))%nat ->
      count_polls (take n (poll_log acts st)) = Z.of_nat n / K) /\
  (forall st', ISR_polls st' = false ->
               serial_rx (ISR st') = serial_rx st' /\
               serial_tx (ISR st') = serial_tx st').
Proof.
  intros H1 Hk Hint Hc.
  assert (Hpt : forall (t : nat) (b : bool),
             poll_log acts st !! t = Some b ->
             b = ((Z.of_nat t + 1) mod K =? 0)).
  { intros t b Hlog. apply poll_log_from in Hlog.
    - rewrite Hlog, Hint, Hc. reflexivity.
    - rewrite Hint. exact Hk.
    - unfold counter_in_range. lia. }
  split; [apply poll_log_length |]. split; [exact Hpt |]. split.
  - apply count_polls_prefix; assumption.
  - intros st' Hidle. rewrite (ISR_idle_tick st' Hidle). split; reflexivity.
Qed.

Lemma poll_every_K_ticks_witness :
  length (poll_log seven_ticks every_third_tick)
  = length (filter (fun a => is_tick a = true) seven_ticks) /\
  (forall (t : nat) (b : bool),
      poll_log seven_ticks every_third_tick !! t = Some b ->
      b = ((Z.of_nat t + 1) mod 3 =? 0)) /\
  (forall n : nat, (n <= length (poll_log seven_ticks every_third_tick))%nat ->
      count_polls (take n (poll_log seven_ticks every_third_tick))
      = Z.of_nat n / 3) /\
  (forall st', ISR_polls st' = false ->
               serial_rx (ISR st') = serial_rx st' /\
               serial_tx (ISR st') = serial_tx st').
Proof.
  apply (poll_every_K_ticks 3 every_third_tick seven_ticks).
  - lia.
  - unfold in_int, int_min, int_max. lia.
  - reflexivity.
  - reflexivity.
Defined.

Example cadence_example :
  poll_log seven_ticks every_third_tick
  = [false; false; true; false; false; true; false].
Proof. reflexivity. Qed.

(** ** The handler never sees a half-copied record *)

Module NoTearing.
Import Interleaving.

Lemma installed_later u hist l d :
  installed u hist d -> installed u (hist ++ [l]) d.
Proof.
  intros [H | H]; [left; exact H | right].
  apply in_or_app. left. exact H.
Qed.

Lemma consistent_after_setup u mem : consistent u [] (after_setup u mem).
Proof.
  split; [reflexivity |]. simpl.
  exists (getBlankDataForController u). split; [left |]; reflexivity.
Qed.

Lemma consistent_step u hist l m m' :
  consistent u hist m ->
  mstep l m = Some m' ->
  consistent u (hist ++ [l]) m'.
Proof.
  intros [Hlen Hfg] Hstep. unfold mstep in Hstep.
  destruct l as [d | | | | b]; destruct (fg m) as [| src k] eqn:Efg;
    try discriminate Hstep.
  - (* Enter *)
    injection Hstep as <-. split; [exact Hlen |]. simpl.
    split; [reflexivity |]. split; [lia |].
    split; [apply in_or_app; right; left; reflexivity | reflexivity].
  - (* CopyByte *)
    destruct (Nat.ltb_spec k (Z.to_nat sizeof_data)) as [Hk | Hk];
      [| discriminate Hstep].
    injection Hstep as <-.
    destruct Hfg as (HI & _ & Hin & Htake).
    destruct (bytes_of src !! k) as [b |] eqn:Eb.
    2:{ apply lookup_ge_None in Eb. rewrite bytes_of_length in Eb. lia. }
    unfold consistent, store_byte. rewrite Eb.
    cbn [fg globals SREG_I controllerDataBuffer set_controllerDataBuffer].
    rewrite length_insert. split; [exact Hlen |].
    split; [exact HI |]. split; [lia |].
    split; [apply in_or_app; left; exact Hin |].
    rewrite (take_S_r _ _ b) by (apply list_lookup_insert_eq; lia).
    rewrite (take_S_r (bytes_of src) _ b) by exact Eb.
    rewrite take_insert_ge by lia. rewrite Htake. reflexivity.
  - (* Leave *)
    destruct (Nat.eqb_spec k (Z.to_nat sizeof_data)) as [-> | Hk];
      [| discriminate Hstep].
    injection Hstep as <-.
    destruct Hfg as (_ & _ & Hin & Htake).
    split; [exact Hlen |]. simpl. exists src. split.
    + right. apply in_or_app. left. exact Hin.
    + rewrite !take_ge in Htake by (rewrite ?bytes_of_length; lia).
      exact Htake.
  - (* TimerIrq, foreground idle *)
    destruct (timer_enabled m); [| discriminate Hstep].
    injection Hstep as <-. unfold consistent.
    cbn [fg globals SREG_I]. rewrite ISR_buffer. split; [exact Hlen |].
    destruct Hfg as (d & Hd & Hb). exists d.
    split; [apply installed_later; exact Hd | exact Hb].
  - (* TimerIrq, foreground copying: interrupts are off *)
    destruct Hfg as (HI & _). unfold timer_enabled in Hstep.
    rewrite HI in Hstep. discriminate Hstep.
  - (* RxIrq, foreground idle *)
    destruct (SREG_I m); [| discriminate Hstep].
    injection Hstep as <-. unfold consistent.
    cbn [fg globals SREG_I]. split; [exact Hlen |].
    destruct Hfg as (d & Hd & Hb). exists d.
    split; [apply installed_later; exact Hd | exact Hb].
  - (* RxIrq, foreground copying: interrupts are off *)
    destruct Hfg as (HI & _). rewrite HI in Hstep. discriminate Hstep.
Qed.

Lemma consistent_run u ls : forall hist m m',
  consistent u hist m ->
  mrun ls m = Some m' ->
  consistent u (hist ++ ls) m'.
Proof.
  induction ls as [| l ls IH]; intros hist m m' Hc Hrun; simpl in Hrun.
  - injection Hrun as <-. rewrite app_nil_r. exact Hc.
  - destruct (mstep l m) as [m1 |] eqn:E; [| discriminate Hrun].
    replace (hist ++ l :: ls) with ((hist ++ [l]) ++ ls)
      by (rewrite <- app_assoc; reflexivity).
    apply (IH _ m1); [| exact Hrun].
    apply (consistent_step u hist l m); assumption.
Qed.

(** C3: start from the state [setupUnoJoy] leaves, let the foreground call
    [setControllerData] any number of times, each call executed as: switch
    interrupts off, copy the record byte by byte, switch them on again; let
    timer and receive interrupts arrive between any two of these steps
    whenever interrupts are on.  Whenever the timer handler runs, the buffer
    it reads is the serialized form of one record [d] installed as a whole
    (the blank one of the setup or the argument of one call), before and
    after the handler, and every byte it writes for a valid offset is a
    byte of that [d]. *)
Theorem handler_sees_whole_record
  (u : dataForController_t) (mem : Z -> Z) (ls : list label)
  (m m' : machine) :
  mrun ls (after_setup u mem) = Some m ->
  mstep TimerIrq m = Some m' ->
  exists d,
    (d = getBlankDataForController u \/ In (Enter d) ls) /\
    controllerDataBuffer (globals m) = bytes_of d /\
    globals m' = ISR (globals m) /\
    controllerDataBuffer (globals m') = bytes_of d /\
    (ISR_polls (globals m) = true ->
     Forall is_byte (serial_rx (globals m)) ->
     forall k i,
       serial_rx (globals m) !! k = Some i ->
       i < sizeof_data ->
       serial_tx (globals m') !! (length (serial_tx (globals m)) + k)%nat
       = byteAt d i).
Proof.
  intros Hrun Hirq.
  pose proof (consistent_run u ls [] _ _ (consistent_after_setup u mem) Hrun)
    as [Hlen Hfg].
  simpl in Hfg. unfold mstep in Hirq.
  assert (Hm' : timer_enabled m = true /\ globals m' = ISR (globals m)).
  { destruct (fg m); destruct (timer_enabled m); try discriminate Hirq;
      injection Hirq as <-; split; reflexivity. }
  destruct Hm' as [Hen Hm']. clear Hirq.
  destruct (fg m) as [| src k].
  - destruct Hfg as (d & Hd & Hb). exists d.
    split; [exact Hd |]. split; [exact Hb |]. split; [exact Hm' |].
    split; [rewrite Hm', ISR_buffer; exact Hb |].
    intros Hpoll Hbytes k i Hk Hi. rewrite Hm'.
    destruct (poll_serves_requests_aux _ Hpoll Hbytes) as (_ & Htx & _).
    rewrite Htx, lookup_app_r by lia.
    replace (length (serial_tx (globals m)) + k
             - length (serial_tx (globals m)))%nat with k by lia.
    rewrite list_lookup_fmap, Hk. simpl.
    symmetry. apply buffer_read_byteAt; [exact Hb |].
    rewrite Forall_forall in Hbytes.
    assert (is_byte i) as [? ?]
      by (apply Hbytes; eapply list_elem_of_lookup_2; exact Hk).
    lia.
  - destruct Hfg as (HI & _). unfold timer_enabled in Hen.
    rewrite HI in Hen. discriminate Hen.
Qed.

Lemma handler_sees_whole_record_witness :
  exists d,
    (d = getBlankDataForController sample_data_padded \/ In (Enter d) one_call) /\
    controllerDataBuffer (globals after_one_call) = bytes_of d /\
    globals after_one_call_and_tick = ISR (globals after_one_call) /\
    controllerDataBuffer (globals after_one_call_and_tick) = bytes_of d /\
    (ISR_polls (globals after_one_call) = true ->
     Forall is_byte (serial_rx (globals after_one_call)) ->
     forall k i,
       serial_rx (globals after_one_call) !! k = Some i ->
       i < sizeof_data ->
       serial_tx (globals after_one_call_and_tick)
         !! (length (serial_tx (globals after_one_call)) + k)%nat
       = byteAt d i).
Proof.
  apply (handler_sees_whole_record sample_data_padded (fun _ => 0) one_call
           after_one_call after_one_call_and_tick); reflexivity.
Defined.

(** The exclusion is what the result rests on: half way through the copy
    the buffer is a mix of the old and the new record, and in that state the
    machine has interrupts off and the timer handler cannot run. *)
Example torn_only_inside_atomic_block :
  exists m,
    run_from_setup half_call = Some m /\
    controllerDataBuffer (globals m) = [0; 0; 0; 10; 128; 128; 128] /\
    bytes_of (getBlankDataForController sample_data_padded)
      = [0; 0; 254; 128; 128; 128; 128] /\
    bytes_of sample_data = [0; 0; 0; 10; 20; 30; 40] /\
    SREG_I m = false /\
    mstep TimerIrq m = None.
Proof. eexists. repeat split. Qed.

End NoTearing.

(** * Further properties *)

(** ** Serialization loses nothing *)

Lemma bits8_flags_inj (a0 a1 a2 a3 a4 a5 a6 a7 b0 b1 b2 b3 b4 b5 b6 b7 : bool) :
  flags_byte a0 a1 a2 a3 a4 a5 a6 a7 = flags_byte b0 b1 b2 b3 b4 b5 b6 b7 ->
  [a0; a1; a2; a3; a4; a5; a6; a7] = [b0; b1; b2; b3; b4; b5; b6; b7].
Proof.
  intros H.
  destruct (flags_byte_bits a0 a1 a2 a3 a4 a5 a6 a7) as [<- _].
  destruct (flags_byte_bits b0 b1 b2 b3 b4 b5 b6 b7) as [<- _].
  rewrite H. reflexivity.
Qed.

(** X3: two well-formed records with the same seven bytes are the same
    record: every button, the padding bits and every stick can be read back
    from the serialized form. *)
Theorem bytes_of_injective (d1 d2 : dataForController_t) :
  wf_data d1 -> wf_data d2 ->
  bytes_of d1 = bytes_of d2 ->
  d1 = d2.
Proof.
  intros (Hp1 & _) (Hp2 & _) Heq.
  destruct (bytes_of_flags d1) as [H10 H11].
  destruct (bytes_of_flags d2) as [H20 H21].
  rewrite Heq in H10, H11. rewrite H20 in H10. rewrite H21 in H11.
  injection H10 as H10. injection H11 as H11.
  apply bits8_flags_inj in H10, H11.
  destruct (bytes_of_shape d1) as (x0 & x1 & E1).
  destruct (bytes_of_shape d2) as (y0 & y1 & E2).
  rewrite Heq, E2 in E1.
  injection E1 as _ _ Hb2 Hlx Hly Hrx Hry.
  destruct (flag_padding_byte (dpadDownOn d1) (padding d1) Hp1) as (Hf1 & Hs1 & _).
  destruct (flag_padding_byte (dpadDownOn d2) (padding d2) Hp2) as (Hf2 & Hs2 & _).
  cbv zeta in Hf1, Hs1, Hf2, Hs2.
  rewrite Hb2 in Hf2, Hs2. rewrite Hf1 in Hf2. rewrite Hs1 in Hs2.
  destruct d1, d2. simpl in *.
  injection H10 as -> -> -> -> -> -> -> ->.
  injection H11 as -> -> -> -> -> -> -> ->.
  subst. reflexivity.
Qed.

Lemma bytes_of_injective_witness : sample_data = sample_data.
Proof.
  apply (bytes_of_injective sample_data sample_data);
    first [reflexivity | unfold wf_data, fits; simpl; lia].
Defined.

(** X4: every byte of the serialized form of a well-formed record is a
    value between 0 and 255. *)
Theorem bytes_of_in_range (d : dataForController_t) :
  wf_data d -> Forall is_byte (bytes_of d).
Proof.
  intros (Hp & Hlx & Hly & Hrx & Hry).
  destruct (bytes_of_flags d) as [H0 H1].
  destruct (bytes_of_shape d) as (b0 & b1 & E).
  rewrite E in H0, H1. simpl in H0, H1.
  injection H0 as ->. injection H1 as ->. rewrite E.
  destruct (flag_padding_byte (dpadDownOn d) (padding d) Hp) as (_ & _ & Hb2).
  cbv zeta in Hb2.
  unfold fits in Hlx, Hly, Hrx, Hry. change (2 ^ 8) with 256 in *.
  repeat apply Forall_cons_2; try apply Forall_nil_2;
    first [apply flags_byte_bits | exact Hb2 | exact Hlx | exact Hly
           | exact Hrx | exact Hry].
Qed.

Lemma bytes_of_in_range_witness : Forall is_byte (bytes_of sample_data_padded).
Proof.
  apply (bytes_of_in_range sample_data_padded).
  unfold wf_data, fits. simpl. lia.
Defined.

(** ** setupUnoJoy *)

(** X2: [setupUnoJoy] sets the compare-match-A enable bit of [TIMSK0] and
    leaves every other bit of that register as it was; it also leaves the
    tick counter, the interval, the serial buffers and pin 13 untouched, so a
    request already buffered survives the call. *)
Theorem setupUnoJoy_sets_one_bit (u : dataForController_t) (st : State) :
  Z.testbit (TIMSK0 (setupUnoJoy u st)) OCIE0A = true /\
  (forall n, n <> OCIE0A ->
             Z.testbit (TIMSK0 (setupUnoJoy u st)) n = Z.testbit (TIMSK0 st) n) /\
  OCR0A (setupUnoJoy u st) = 128 /\
  serial_baud (setupUnoJoy u st) = Some 38400 /\
  serialCheckCounter (setupUnoJoy u st) = serialCheckCounter st /\
  serialCheckInterval (setupUnoJoy u st) = serialCheckInterval st /\
  serial_rx (setupUnoJoy u st) = serial_rx st /\
  serial_tx (setupUnoJoy u st) = serial_tx st /\
  pin13 (setupUnoJoy u st) = pin13 st.
Proof.
  assert (Hbit : forall n, Z.testbit (Z.shiftl 1 OCIE0A) n = (1 =? n)).
  { intros n. change (Z.shiftl 1 OCIE0A) with (2 ^ 1).
    apply Z.pow2_bits_eqb. lia. }
  unfold setupUnoJoy. cbn [TIMSK0 set_hardware set_controllerDataBuffer OCR0A
    serial_baud serialCheckCounter serialCheckInterval serial_rx serial_tx pin13].
  split; [rewrite Z.lor_spec, Hbit; apply orb_true_r |].
  split; [| repeat split].
  intros n Hn. rewrite Z.lor_spec, Hbit. unfold OCIE0A in Hn.
  destruct (Z.eqb_spec 1 n); [congruence | apply orb_false_r].
Qed.

(** ** Intervals below 1 *)

Lemma ISR_polls_small_interval (st : State) :
  serialCheckInterval st <= 1 ->
  serialCheckCounter st = 0 ->
  ISR_polls st = true /\ serialCheckCounter (ISR st) = 0.
Proof.
  intros Hk Hc.
  assert (Hp : ISR_polls st = true).
  { unfold ISR_polls. rewrite Hc. change (wrap_int (0 + 1)) with 1.
    unfold Z.geb. destruct (Z.compare_spec 1 (serialCheckInterval st));
      first [reflexivity | lia]. }
  split; [exact Hp |]. rewrite (ISR_poll_tick st Hp). reflexivity.
Qed.

(** X1: [setupUnoJoy(interval)] stores the interval without checking it.
    With an interval of 1, 0 or any negative value, and the counter at 0,
    every tick polls and the counter is back at 0 after every tick. *)
Theorem nonpositive_interval_polls_every_tick
  (K : Z) (u : dataForController_t) (st0 : State) (acts : list action) :
  K <= 1 ->
  serialCheckCounter st0 = 0 ->
  let st := setupUnoJoy_interval K u st0 in
  serialCheckInterval st = K /\
  serialCheckCounter (run acts st) = 0 /\
  (forall (t : nat) (b : bool), poll_log acts st !! t = Some b -> b = true).
Proof.
  intros HK Hc0 st.
  assert (Hi : serialCheckInterval st <= 1) by (simpl; exact HK).
  assert (Hc : serialCheckCounter st = 0) by (simpl; exact Hc0).
  split; [reflexivity |].
  clearbody st. clear Hc0 st0 u. revert st Hi Hc.
  induction acts as [| a acts IH]; intros st Hi Hc.
  - split; [exact Hc | intros t b H; discriminate H].
  - destruct (ISR_polls_small_interval st Hi Hc) as [Hp Hc'].
    assert (Hnext : serialCheckInterval (exec a st) <= 1 /\
                    serialCheckCounter (exec a st) = 0).
    { destruct a as [| r | d]; simpl.
      - rewrite ISR_interval. split; [exact Hi | exact Hc'].
      - split; [exact Hi | exact Hc].
      - split; [exact Hi | exact Hc]. }
    destruct Hnext as [Hi1 Hc1].
    destruct (IH (exec a st) Hi1 Hc1) as [IHc IHl].
    split; [rewrite run_cons; exact IHc |].
    intros t b Hlog. destruct a as [| r | d]; simpl in Hlog.
    + destruct t as [| t]; simpl in Hlog.
      * injection Hlog as <-. exact Hp.
      * exact (IHl t b Hlog).
    + exact (IHl t b Hlog).
    + exact (IHl t b Hlog).
Qed.

Lemma nonpositive_interval_polls_every_tick_witness :
  let st := setupUnoJoy_interval (-5) sample_data (boot (fun _ => 0)) in
  serialCheckInterval st = -5 /\
  serialCheckCounter (run seven_ticks st) = 0 /\
  (forall (t : nat) (b : bool),
      poll_log seven_ticks st !! t = Some b -> b = true).
Proof.
  apply (nonpositive_interval_polls_every_tick (-5) sample_data
           (boot (fun _ => 0)) seven_ticks).
  - lia.
  - reflexivity.
Defined.

(** ** A counter past the interval *)

(** X8: the handler compares with [>=], so a counter that is at or past the
    interval (an interval lowered by a later [setupUnoJoy(interval)], which
    does not reset the counter) is repaired by the next tick: that tick polls
    and resets the counter.  From any non-negative counter below [INT_MAX],
    one tick brings the counter into [0 <= counter < interval]. *)
Theorem one_tick_restores_counter_range (st : State) :
  in_int (serialCheckInterval st) ->
  1 <= serialCheckInterval st ->
  0 <= serialCheckCounter st < int_max ->
  counter_in_range (ISR st) /\
  (serialCheckInterval st <= serialCheckCounter st + 1 ->
   ISR_polls st = true /\ serialCheckCounter (ISR st) = 0).
Proof.
  unfold in_int, int_min, int_max, counter_in_range. intros Hk H1 Hc.
  assert (Hw : wrap_int (serialCheckCounter st + 1) = serialCheckCounter st + 1)
    by (apply wrap_int_id; unfold in_int, int_min, int_max; lia).
  rewrite ISR_interval, ISR_cases. unfold ISR_polls. rewrite Hw. unfold Z.geb.
  destruct (Z.compare_spec (serialCheckCounter st + 1) (serialCheckInterval st));
    simpl; split; try lia; intros; split; first [reflexivity | lia].
Qed.

Lemma one_tick_restores_counter_range_witness :
  counter_in_range (ISR counter_past_interval) /\
  (serialCheckInterval counter_past_interval
   <= serialCheckCounter counter_past_interval + 1 ->
   ISR_polls counter_past_interval = true /\
   serialCheckCounter (ISR counter_past_interval) = 0).
Proof.
  apply (one_tick_restores_counter_range counter_past_interval).
  - unfold in_int, int_min, int_max. simpl. lia.
  - simpl. lia.
  - unfold int_max. simpl. lia.
Defined.

(** ** Pin 13 *)

(** X7: the handler makes pin 13 an output when, and only when, it serves
    at least one request; a tick that does not poll, or polls with nothing
    buffered, leaves the pin as it is. *)
Theorem pin13_output_once_served (st : State) :
  pin13 (ISR st) =
  if ISR_polls st
  then match serial_rx st with [] => pin13 st | _ => OUTPUT end
  else pin13 st.
Proof. rewrite ISR_cases. destruct (ISR_polls st); reflexivity. Qed.

(** ** Requests and answers in arbitrary runs *)

(** X9: in any run, submits included, every request byte gets exactly one
    answer byte: the number of bytes written plus the number of requests
    still buffered grows by exactly the number of requests received. *)
Theorem one_answer_per_request (acts : list action) (st : State) :
  (length (serial_tx (run acts st)) + length (serial_rx (run acts st))
   = length (serial_tx st) + length (serial_rx st) + length (requests acts))%nat.
Proof.
  revert st. induction acts as [| a acts IH]; intros st.
  - simpl. lia.
  - rewrite run_cons, IH, requests_cons, length_app.
    destruct a as [| r | d]; simpl.
    + rewrite ISR_cases. destruct (ISR_polls st); simpl.
      * unfold answers. rewrite length_app, length_map. simpl. lia.
      * lia.
    + rewrite length_app. simpl. lia.
    + lia.
Qed.

Lemma served_prefix (acts : list action) (st : State) :
  no_submit acts ->
  exists served,
    serial_rx st ++ requests acts = served ++ serial_rx (run acts st) /\
    serial_tx (run acts st) = serial_tx st ++ answers st served.
Proof.
  unfold no_submit. revert st.
  induction acts as [| a acts IH]; intros st H.
  - exists []. simpl. rewrite !app_nil_r. split; reflexivity.
  - simpl in H. apply andb_true_iff in H as [Ha H].
    assert (Ha' : is_submit a = false)
      by (destruct (is_submit a); [discriminate Ha | reflexivity]).
    assert (Hext : forall reqs, answers (exec a st) reqs = answers st reqs)
      by (intros reqs; apply answers_ext;
          [apply exec_buffer; exact Ha' | apply exec_adjacent]).
    destruct (IH (exec a st) H) as (s1 & Hrx & Htx).
    rewrite Hext in Htx. rewrite run_cons.
    destruct a as [| r | d]; [| | discriminate Ha'].
    + simpl requests. simpl exec in *. rewrite ISR_cases in Hrx, Htx |- *.
      destruct (ISR_polls st); simpl in Hrx, Htx.
      * exists (serial_rx st ++ s1). split.
        -- rewrite <- app_assoc, <- Hrx. reflexivity.
        -- rewrite Htx, answers_app, app_assoc.
           rewrite (answers_ext st) by reflexivity. reflexivity.
      * exists s1. split; assumption.
    + simpl requests. simpl exec in *. exists s1. split.
      * rewrite <- Hrx. cbn [serial_rx set_serial_rx].
        rewrite <- app_assoc. reflexivity.
      * exact Htx.
Qed.

(** X10: in a run without a submit that starts with nothing buffered, the
    requests are answered in arrival order: the requests received split into
    those served and those still buffered, and the output is the bytes at the
    served offsets, in the same order. *)
Theorem requests_answered_in_arrival_order (acts : list action) (st : State) :
  no_submit acts ->
  serial_rx st = [] ->
  Forall is_byte (requests acts) ->
  exists served,
    requests acts = served ++ serial_rx (run acts st) /\
    serial_tx (run acts st) = serial_tx st ++ map (buffer_read st) served.
Proof.
  intros Hns Hrx Hbytes.
  destruct (served_prefix acts st Hns) as (served & Hsplit & Htx).
  rewrite Hrx in Hsplit. simpl in Hsplit.
  exists served. split; [exact Hsplit |].
  rewrite Htx, answers_bytes; [reflexivity |].
  rewrite Hsplit in Hbytes. apply Forall_app in Hbytes. apply Hbytes.
Qed.

Lemma requests_answered_in_arrival_order_witness :
  exists served,
    requests two_served_one_waiting
      = served ++ serial_rx (run two_served_one_waiting (ready 0 [])) /\
    serial_tx (run two_served_one_waiting (ready 0 []))
      = serial_tx (ready 0 []) ++ map (buffer_read (ready 0 [])) served.
Proof.
  apply (requests_answered_in_arrival_order two_served_one_waiting (ready 0 [])).
  - reflexivity.
  - reflexivity.
  - repeat constructor; unfold is_byte; lia.
Defined.

(** ** A submit before the poll *)

(** X5: a request is answered from the record stored when the poll serves
    it, not from the one stored when the request arrived: if a record is
    submitted while requests for valid offsets are buffered, the next poll
    answers all of them with bytes of the new record. *)
Theorem buffered_requests_see_new_record
  (d : dataForController_t) (st : State) :
  ISR_polls st = true ->
  Forall (fun i => 0 <= i < sizeof_data) (serial_rx st) ->
  exists out,
    serial_tx (ISR (setControllerData d st)) = serial_tx st ++ out /\
    Forall2 (fun i b => byteAt d i = Some b) (serial_rx st) out.
Proof.
  intros Hpoll Hvalid.
  assert (Hbytes : Forall is_byte (serial_rx (setControllerData d st))).
  { simpl. eapply Forall_impl; [exact Hvalid |].
    intros i Hi. unfold is_byte, sizeof_data in *. lia. }
  destruct (poll_serves_requests_aux (setControllerData d st) Hpoll Hbytes)
    as (_ & Htx & _).
  exists (map (buffer_read (setControllerData d st)) (serial_rx st)).
  split; [exact Htx |].
  induction Hvalid as [| i rest Hi _ IH]; simpl; constructor.
  - apply buffer_read_byteAt; [reflexivity | exact Hi].
  - exact IH.
Qed.

Lemma buffered_requests_see_new_record_witness :
  exists out,
    serial_tx (ISR (setControllerData sample_data two_requests))
      = serial_tx two_requests ++ out /\
    Forall2 (fun i b => byteAt sample_data i = Some b)
            (serial_rx two_requests) out.
Proof.
  apply (buffered_requests_see_new_record sample_data two_requests).
  - reflexivity.
  - repeat constructor; unfold sizeof_data; lia.
Defined.

(** ** One call of setControllerData, step by step *)

Lemma copy_step (d : dataForController_t) (g : State) (i : bool) (k : nat)
  (b : Z) :
  (k < Z.to_nat sizeof_data)%nat ->
  bytes_of d !! k = Some b ->
  Interleaving.mstep Interleaving.CopyByte
    (Interleaving.mkMachine g i (Interleaving.Copying d k))
  = Some (Interleaving.mkMachine
            (set_controllerDataBuffer (<[k := b]> (controllerDataBuffer g)) g)
            i (Interleaving.Copying d (S k))).
Proof.
  intros Hk Hb. unfold Interleaving.mstep. cbn [Interleaving.fg].
  destruct (Nat.ltb_spec k (Z.to_nat sizeof_data)) as [_ | H]; [| lia].
  unfold Interleaving.store_byte. cbn [Interleaving.globals].
  rewrite Hb. reflexivity.
Qed.

Lemma irq_off_during_copy (ls : list Interleaving.label) :
  forall m m',
    Forall (fun l => l = Interleaving.CopyByte) ls ->
    Interleaving.SREG_I m = false ->
    Interleaving.mrun ls m = Some m' ->
    Interleaving.SREG_I m' = false.
Proof.
  induction ls as [| l ls IH]; intros m m' Hall Hoff Hrun; simpl in Hrun.
  - injection Hrun as <-. exact Hoff.
  - inversion Hall as [| ? ? Hl Hrest]; subst.
    destruct (Interleaving.mstep Interleaving.CopyByte m) as [m1 |] eqn:E;
      [| discriminate Hrun].
    apply (IH m1 m' Hrest); [| exact Hrun].
    unfold Interleaving.mstep in E.
    destruct (Interleaving.fg m) as [| src k]; [discriminate E |].
    destruct (k <? Z.to_nat sizeof_data)%nat; [| discriminate E].
    injection E as <-. exact Hoff.
Qed.

Lemma irq_off_blocks_handlers (m : Interleaving.machine) (b : Z) :
  Interleaving.SREG_I m = false ->
  Interleaving.mstep Interleaving.TimerIrq m = None /\
  Interleaving.mstep (Interleaving.RxIrq b) m = None.
Proof.
  intros Hoff. unfold Interleaving.mstep, Interleaving.timer_enabled.
  rewrite Hoff. destruct (Interleaving.fg m); split; reflexivity.
Qed.

(** X6: executed step by step (interrupts off, seven byte stores,
    interrupts on), a call of [setControllerData d] from outside the atomic
    block ends with exactly the state the one-step [setControllerData d]
    gives, and with interrupts enabled whether or not they were enabled
    before the call; after each of the first eight steps of the call (the
    entry and the seven stores) neither the timer handler nor the receive
    handler can run. *)
Theorem full_call_stores_record
  (d : dataForController_t) (m : Interleaving.machine) :
  Interleaving.fg m = Interleaving.Idle ->
  length (controllerDataBuffer (Interleaving.globals m))
    = Z.to_nat sizeof_data ->
  Interleaving.mrun (full_call d) m
    = Some (Interleaving.mkMachine
              (setControllerData d (Interleaving.globals m))
              true Interleaving.Idle) /\
  (forall (n : nat) m1 b,
      (1 <= n <= 8)%nat ->
      Interleaving.mrun (take n (full_call d)) m = Some m1 ->
      Interleaving.mstep Interleaving.TimerIrq m1 = None /\
      Interleaving.mstep (Interleaving.RxIrq b) m1 = None).
Proof.
  intros Hfg Hlen. destruct m as [g i f]. simpl in Hfg, Hlen. subst f.
  split.
  - pose proof (bytes_of_length d) as Hl.
    unfold setControllerData. cbn [Interleaving.globals].
    remember (bytes_of d) as src eqn:Es.
    do 7 (destruct src as [| ? src]; [discriminate Hl |]).
    destruct src; [| discriminate Hl]. clear Hl.
    unfold full_call. cbn [replicate app Interleaving.mrun].
    unfold Interleaving.mstep at 1. cbn [Interleaving.fg Interleaving.globals].
    do 7 (erewrite copy_step;
          [| unfold sizeof_data; simpl; lia | rewrite <- Es; reflexivity]).
    unfold Interleaving.mstep. cbn [Interleaving.fg Interleaving.globals].
    destruct g as [buf adj iv c rx tx pin baud ocr timsk].
    simpl in Hlen.
    do 7 (destruct buf as [| ? buf]; [discriminate Hlen |]).
    destruct buf; [| discriminate Hlen].
    reflexivity.
  - intros n m1 b Hn Hrun. apply irq_off_blocks_handlers.
    destruct n as [| n]; [lia |].
    unfold full_call in Hrun. rewrite firstn_cons in Hrun.
    rewrite take_app_le in Hrun by (rewrite length_replicate; lia).
    rewrite take_replicate in Hrun.
    cbn [Interleaving.mrun] in Hrun.
    unfold Interleaving.mstep at 1 in Hrun. cbn [Interleaving.fg] in Hrun.
    eapply irq_off_during_copy; [| | exact Hrun].
    + apply Forall_replicate. reflexivity.
    + reflexivity.
Qed.

Lemma full_call_stores_record_witness :
  Interleaving.mrun (full_call sample_data_padded) idle_irq_off
    = Some (Interleaving.mkMachine
              (setControllerData sample_data_padded
                 (Interleaving.globals idle_irq_off))
              true Interleaving.Idle) /\
  (forall (n : nat) m1 b,
      (1 <= n <= 8)%nat ->
      Interleaving.mrun (take n (full_call sample_data_padded)) idle_irq_off
        = Some m1 ->
      Interleaving.mstep Interleaving.TimerIrq m1 = None /\
      Interleaving.mstep (Interleaving.RxIrq b) m1 = None).
Proof.
  apply (full_call_stores_record sample_data_padded idle_irq_off); reflexivity.
Defined.

(** ** setupUnoJoy against the timer interrupt *)

Module SetupFacts.
Import SetupOrder.

Lemma store_byte_TIMSK0 k d st :
  TIMSK0 (Interleaving.store_byte k d st) = TIMSK0 st.
Proof.
  unfold Interleaving.store_byte. destruct (bytes_of d !! k); reflexivity.
Qed.

Lemma ordered_step blank l m m' :
  ordered blank m ->
  mstep blank l m = Some m' ->
  ordered blank m'.
Proof.
  intros [Hlen Hpc] Hstep. destruct l as [| | b]; simpl in Hstep.
  - (* a foreground statement *)
    unfold fg_step in Hstep. destruct (pc m) as [k | | | |] eqn:Epc.
    + destruct (Nat.ltb_spec k (Z.to_nat sizeof_data)) as [Hk | Hk];
        [| discriminate Hstep].
      injection Hstep as <-. destruct Hpc as (Hbit & _ & Htake).
      destruct (bytes_of blank !! k) as [b |] eqn:Eb.
      2:{ apply lookup_ge_None in Eb. rewrite bytes_of_length in Eb. lia. }
      assert (Hbuf : controllerDataBuffer (Interleaving.store_byte k blank (globals m))
                     = <[k := b]> (controllerDataBuffer (globals m)))
        by (unfold Interleaving.store_byte; rewrite Eb; reflexivity).
      assert (Htake' : take (S k) (<[k := b]> (controllerDataBuffer (globals m)))
                       = take (S k) (bytes_of blank)).
      { rewrite (take_S_r _ _ b) by (apply list_lookup_insert_eq; lia).
        rewrite (take_S_r (bytes_of blank) _ b) by exact Eb.
        rewrite take_insert_ge by lia. rewrite Htake. reflexivity. }
      unfold ordered. cbn [globals pc].
      rewrite store_byte_TIMSK0, Hbuf, length_insert.
      split; [exact Hlen |].
      destruct (Nat.eqb_spec k 6) as [E | E].
      * split; [exact Hbit |]. subst k.
        change (Z.to_nat sizeof_data) with 7%nat in Hlen.
        rewrite !take_ge in Htake'
          by (rewrite ?length_insert, ?bytes_of_length;
              change (Z.to_nat sizeof_data) with 7%nat; lia).
        exact Htake'.
      * split; [exact Hbit |].
        split; [unfold sizeof_data in *; simpl in *; lia | exact Htake'].
    + injection Hstep as <-. split; [exact Hlen | exact Hpc].
    + injection Hstep as <-. split; [exact Hlen | exact Hpc].
    + injection Hstep as <-. split; [exact Hlen | apply Hpc].
    + discriminate Hstep.
  - (* the timer interrupt *)
    destruct (timer_enabled m) eqn:Een; [| discriminate Hstep].
    injection Hstep as <-. unfold timer_enabled in Een.
    apply andb_true_iff in Een as [_ Hbit].
    unfold ordered. cbn [globals pc]. rewrite ISR_buffer, ISR_TIMSK0.
    split; [exact Hlen |].
    destruct (pc m); first [exact Hpc | destruct Hpc as [Hoff _]; congruence].
  - (* a received byte *)
    destruct (SREG_I m); [| discriminate Hstep].
    injection Hstep as <-. split; [exact Hlen | exact Hpc].
Qed.

Lemma ordered_run blank ls : forall m m',
  ordered blank m ->
  mrun blank ls m = Some m' ->
  ordered blank m'.
Proof.
  induction ls as [| l ls IH]; intros m m' Ho Hrun; simpl in Hrun.
  - injection Hrun as <-. exact Ho.
  - destruct (mstep blank l m) as [m1 |] eqn:E; [| discriminate Hrun].
    apply (IH m1 m'); [| exact Hrun].
    apply (ordered_step blank l m); assumption.
Qed.

(** X11: [setupUnoJoy] fills the buffer before it enables the timer
    compare interrupt.  Entered with that interrupt not yet enabled in
    [TIMSK0], and run statement by statement with interrupts arriving in
    between, the timer handler can run only after the last statement, and the
    buffer it then reads holds the complete blank record: it never sees the
    buffer half initialised. *)
Theorem handler_waits_for_setup
  (u : dataForController_t) (st : State) (i : bool) (ls : list label)
  (m m' : machine) :
  Z.testbit (TIMSK0 st) OCIE0A = false ->
  length (controllerDataBuffer st) = Z.to_nat sizeof_data ->
  mrun (getBlankDataForController u) ls (entry st i) = Some m ->
  mstep (getBlankDataForController u) TimerIrq m = Some m' ->
  pc m = Done /\
  controllerDataBuffer (globals m) = bytes_of (getBlankDataForController u).
Proof.
  intros Hbit Hlen Hrun Hirq.
  assert (H0 : ordered (getBlankDataForController u) (entry st i)).
  { split; [exact Hlen |]. cbn [pc entry globals].
    split; [exact Hbit |]. split; [unfold sizeof_data; simpl; lia | reflexivity]. }
  destruct (ordered_run _ ls _ _ H0 Hrun) as [_ Hpc].
  simpl in Hirq. destruct (timer_enabled m) eqn:Een; [| discriminate Hirq].
  unfold timer_enabled in Een. apply andb_true_iff in Een as [_ Hon].
  destruct (pc m); first [split; [reflexivity | exact Hpc]
                         | destruct Hpc as [Hoff _]; congruence].
Qed.

Lemma handler_waits_for_setup_witness :
  pc after_setup_with_request = Done /\
  controllerDataBuffer (globals after_setup_with_request)
    = bytes_of (getBlankDataForController sample_data_padded).
Proof.
  apply (handler_waits_for_setup sample_data_padded (boot (fun _ => 0)) true
           setup_with_request after_setup_with_request after_setup_tick);
    reflexivity.
Defined.

Lemma setup_copy_step blank g i k b :
  (k < 7)%nat ->
  bytes_of blank !! k = Some b ->
  fg_step blank (mkMachine g i (CopyBlank k))
  = Some (mkMachine
            (set_controllerDataBuffer (<[k := b]> (controllerDataBuffer g)) g)
            i (if (S k =? 7)%nat then SerialBegin else CopyBlank (S k))).
Proof.
  intros Hk Hb. unfold fg_step. cbn [pc globals SREG_I].
  change (Z.to_nat sizeof_data) with 7%nat.
  destruct (Nat.ltb_spec k 7) as [_ | H]; [| lia].
  unfold Interleaving.store_byte. rewrite Hb. reflexivity.
Qed.

(** X12: the ten statements-and-stores of [setupUnoJoy], executed one by
    one with no interrupt in between, end in exactly the state
    [setupUnoJoy] gives in one step, with the interrupt flag as it was on
    entry. *)
Theorem setup_steps_give_setupUnoJoy
  (u : dataForController_t) (st : State) (i : bool) :
  length (controllerDataBuffer st) = Z.to_nat sizeof_data ->
  mrun (getBlankDataForController u) (replicate 10 Step) (entry st i)
  = Some (mkMachine (setupUnoJoy u st) i Done).
Proof.
  intros Hlen. unfold setupUnoJoy, entry.
  pose proof (bytes_of_length (getBlankDataForController u)) as Hl.
  remember (getBlankDataForController u) as blank eqn:Eblank. clear Eblank.
  remember (bytes_of blank) as src eqn:Es.
  do 7 (destruct src as [| ? src]; [discriminate Hl |]).
  destruct src; [| discriminate Hl]. clear Hl.
  cbn [replicate mrun mstep].
  do 7 (erewrite setup_copy_step; [| lia | rewrite <- Es; reflexivity];
        cbn [Nat.eqb]).
  destruct st as [buf adj iv c rx tx pin baud ocr timsk].
  simpl in Hlen.
  do 7 (destruct buf as [| ? buf]; [discriminate Hlen |]).
  destruct buf; [| discriminate Hlen].
  reflexivity.
Qed.

Lemma setup_steps_give_setupUnoJoy_witness :
  mrun (getBlankDataForController sample_data_padded) (replicate 10 Step)
       (entry (boot (fun _ => 0)) true)
  = Some (mkMachine (setupUnoJoy sample_data_padded (boot (fun _ => 0)))
                    true Done).
Proof.
  apply (setup_steps_give_setupUnoJoy sample_data_padded (boot (fun _ => 0)) true).
  reflexivity.
Defined.

End SetupFacts.

(** ** The blank record on the wire *)

(** X13: whatever its uninitialised local holds, [getBlankDataForController]
    returns a record with all seventeen buttons off and the four sticks at
    128; in its serialized form bytes 0 and 1 are 0, bytes 3 to 6 are 128 and
    bit 0 of byte 2 is 0, the other seven bits of byte 2 being the padding
    bits the local happened to hold.  The record is well formed whenever
    those padding bits fit their seven-bit member. *)
Theorem blank_is_neutral (u : dataForController_t) :
  fits 7 (padding u) ->
  let d := getBlankDataForController u in
  wf_data d /\
  byteAt d 0 = Some 0 /\ byteAt d 1 = Some 0 /\
  byteAt d 3 = Some 128 /\ byteAt d 4 = Some 128 /\
  byteAt d 5 = Some 128 /\ byteAt d 6 = Some 128 /\
  exists b2, byteAt d 2 = Some b2 /\
             Z.testbit b2 0 = false /\ Z.shiftr b2 1 = padding u.
Proof.
  intros Hp d.
  destruct (blank_buttons_and_sticks u) as (_ & _ & Hbytes).
  fold d in Hbytes.
  split.
  - unfold wf_data, fits. simpl. unfold fits in Hp. lia.
  - unfold byteAt. rewrite Hbytes. simpl.
    repeat (split; [reflexivity |]).
    exists (2 * padding u). split; [reflexivity |].
    split; [apply Z.testbit_even_0 |].
    rewrite Z.shiftr_div_pow2 by lia. change (2 ^ 1) with 2.
    rewrite Z.mul_comm. apply Z.div_mul. lia.
Qed.

Lemma blank_is_neutral_witness :
  let d := getBlankDataForController sample_data_padded in
  wf_data d /\
  byteAt d 0 = Some 0 /\ byteAt d 1 = Some 0 /\
  byteAt d 3 = Some 128 /\ byteAt d 4 = Some 128 /\
  byteAt d 5 = Some 128 /\ byteAt d 6 = Some 128 /\
  exists b2, byteAt d 2 = Some b2 /\
             Z.testbit b2 0 = false /\
             Z.shiftr b2 1 = padding sample_data_padded.
Proof.
  apply (blank_is_neutral sample_data_padded).
  unfold fits. simpl. lia.
Defined.

Lemma neutral_read (u : dataForController_t) (st0 : State) (i : Z) :
  0 <= i < sizeof_data -> i <> 2 ->
  buffer_read (setupUnoJoy u st0) (to_byte i) = neutral_byte i.
Proof.
  intros Hi Hne. unfold sizeof_data in Hi.
  rewrite to_byte_id by (unfold is_byte; lia).
  unfold buffer_read, setupUnoJoy.
  cbn [controllerDataBuffer set_hardware set_controllerDataBuffer].
  destruct (blank_buttons_and_sticks u) as (_ & _ & Hbytes).
  cbv zeta in Hbytes. rewrite Hbytes.
  assert (Hcases : i = 0 \/ i = 1 \/ i = 3 \/ i = 4 \/ i = 5 \/ i = 6) by lia.
  destruct Hcases as [-> | [-> | [-> | [-> | [-> | ->]]]]]; reflexivity.
Qed.

(** X14: from [setupUnoJoy] until the first [setControllerData], the
    controller answers as a neutral one: in any run without a submit, every
    served request for a button byte (offsets 0 and 1) is answered with 0 and
    every served request for a stick byte (offsets 3 to 6) with 128, in
    arrival order. *)
Theorem neutral_until_first_submit
  (u : dataForController_t) (st0 : State) (acts : list action) :
  no_submit acts ->
  serial_rx st0 = [] ->
  Forall (fun i => 0 <= i < sizeof_data /\ i <> 2) (requests acts) ->
  exists served,
    requests acts = served ++ serial_rx (run acts (setupUnoJoy u st0)) /\
    serial_tx (run acts (setupUnoJoy u st0))
    = serial_tx st0 ++ map neutral_byte served.
Proof.
  intros Hns Hrx Hreq.
  destruct (served_prefix acts (setupUnoJoy u st0) Hns)
    as (served & Hsplit & Htx).
  change (serial_rx (setupUnoJoy u st0)) with (serial_rx st0) in Hsplit.
  rewrite Hrx in Hsplit. simpl in Hsplit.
  exists served. split; [exact Hsplit |].
  rewrite Htx. change (serial_tx (setupUnoJoy u st0)) with (serial_tx st0).
  f_equal. unfold answers.
  rewrite Hsplit in Hreq. apply Forall_app in Hreq as [Hserved _].
  clear Hsplit Htx.
  induction Hserved as [| i rest [Hi Hne] _ IH]; cbn [map]; [reflexivity |].
  rewrite IH, (neutral_read u st0 i Hi Hne). reflexivity.
Qed.

Lemma neutral_until_first_submit_witness :
  exists served,
    requests poll_around_padding
      = served ++ serial_rx (run poll_around_padding
                               (setupUnoJoy sample_data_padded
                                  (boot (fun _ => 0)))) /\
    serial_tx (run poll_around_padding
                 (setupUnoJoy sample_data_padded (boot (fun _ => 0))))
    = serial_tx (boot (fun _ => 0)) ++ map neutral_byte served.
Proof.
  apply (neutral_until_first_submit sample_data_padded (boot (fun _ => 0))
           poll_around_padding).
  - reflexivity.
  - reflexivity.
  - repeat constructor; unfold sizeof_data; lia.
Defined.
